(** * Supervisor integration agent: protocol adapter, combiner, history summarizer

    A shallow embedding of [app/agent_caller.py], [app/combine.py] and
    [app/history.py].  Python values are a small tagged union, dictionaries
    are association lists in insertion order, exceptions are an explicit
    [result] type, and everything the code obtains from outside (the HTTP
    client, the language model, the process environment, the number and
    JSON formatters of the runtime) is a field of an environment record.

    Strings: a Rocq [string] stands for a Python [str]; one [ascii] is one
    character (a code point below 256), so [len] and slicing count
    characters.  Integers are unbounded and print in full. *)

From Stdlib Require Import List String Ascii ZArith Bool Lia.
From Stdlib Require Import DecimalString.
From Stdlib Require Floats.SpecFloat.
Import ListNotations.
Local Open Scope list_scope.
Local Open Scope string_scope.

Set Implicit Arguments.
Set Warnings "-register-all".

(* ===================================================================== *)
(** ** Exceptions and fallible computations *)
(* ===================================================================== *)

(** A raised exception: its class name and [str(exc)]. *)
Record exn := Exn { exn_class : string; exn_text : string }.

Inductive result (A : Type) : Type :=
| Ok (a : A)
| Raise (e : exn).
Arguments Ok {A} a.
Arguments Raise {A} e.

Definition bind {A B} (m : result A) (k : A -> result B) : result B :=
  match m with
  | Ok a => k a
  | Raise e => Raise e
  end.

(** [try: body except Exception as e: handler e] *)
Definition try_except {A} (body : result A) (handler : exn -> result A) : result A :=
  match body with
  | Ok a => Ok a
  | Raise e => handler e
  end.

Declare Scope py_scope.
Delimit Scope py_scope with py.
Notation "x <- m ;; k" := (bind m (fun x => k))
  (at level 61, m at next level, right associativity) : py_scope.
Notation "m ;;; k" := (bind m (fun _ => k))
  (at level 61, right associativity) : py_scope.
Local Open Scope py_scope.

Definition AttributeError (ty attr : string) : exn :=
  Exn "AttributeError" ("'" ++ ty ++ "' object has no attribute '" ++ attr ++ "'").
Definition TypeError (text : string) : exn := Exn "TypeError" text.
Definition ValueError (text : string) : exn := Exn "ValueError" text.
Definition KeyError (text : string) : exn := Exn "KeyError" text.
Definition IndexError (text : string) : exn := Exn "IndexError" text.
Definition OverflowError (text : string) : exn := Exn "OverflowError" text.

(* ===================================================================== *)
(** ** Python values *)
(* ===================================================================== *)

Module Py.

(** The values that travel through the adapter: what [json.loads] returns
    and what the caller puts into [context]. *)
Inductive value : Type :=
| VNone
| VBool (b : bool)
| VInt (z : Z)
| VFloat (f : SpecFloat.spec_float)
| VStr (s : string)
| VList (l : list value)
| VDict (d : list (string * value)).

(** A [dict] with [str] keys, in insertion order. *)
Definition dict := list (string * value).

Definition type_name (v : value) : string :=
  match v with
  | VNone => "NoneType"
  | VBool _ => "bool"
  | VInt _ => "int"
  | VFloat _ => "float"
  | VStr _ => "str"
  | VList _ => "list"
  | VDict _ => "dict"
  end.

(** [bool(v)] *)
Definition truthy (v : value) : bool :=
  match v with
  | VNone => false
  | VBool b => b
  | VInt z => negb (Z.eqb z 0)
  | VFloat f => match f with SpecFloat.S754_zero _ => false | _ => true end
  | VStr s => negb (String.eqb s "")
  | VList l => match l with [] => false | _ => true end
  | VDict d => match d with [] => false | _ => true end
  end.

(** [d.get(k)] on the association list, [None] as [option]. *)
Fixpoint lookup (d : dict) (k : string) : option value :=
  match d with
  | [] => None
  | (k', v) :: rest => if String.eqb k' k then Some v else lookup rest k
  end.

(** [d.get(k, default)] *)
Definition dict_get (d : dict) (k : string) (default : value) : value :=
  match lookup d k with
  | Some v => v
  | None => default
  end.

(** [k in d] *)
Definition contains (d : dict) (k : string) : bool :=
  match lookup d k with
  | Some _ => true
  | None => false
  end.

(** [d[k] = v]: overwrite in place, or append a new key at the end. *)
Fixpoint dict_set (d : dict) (k : string) (v : value) : dict :=
  match d with
  | [] => [(k, v)]
  | (k', v') :: rest =>
      if String.eqb k' k then (k', v) :: rest else (k', v') :: dict_set rest k v
  end.

(** [v.get(k, default)] on an arbitrary value: only a [dict] has [get]. *)
Definition get (v : value) (k : string) (default : value) : result value :=
  match v with
  | VDict d => Ok (dict_get d k default)
  | _ => Raise (AttributeError (type_name v) "get")
  end.

(** [v == "literal"] *)
Definition eq_str (v : value) (s : string) : bool :=
  match v with
  | VStr s' => String.eqb s' s
  | _ => false
  end.

Definition isinstance_dict (v : value) : bool :=
  match v with
  | VDict _ => true
  | _ => false
  end.

Definition string_of_Z (z : Z) : string := NilZero.string_of_int (Z.to_int z).

(** [sep.join(parts)] on strings. *)
Definition join (sep : string) (parts : list string) : string :=
  String.concat sep parts.

(** [s[:n]] *)
Definition prefix (n : nat) (s : string) : string := String.substring 0 n s.

(** [c * n] for a one-character string. *)
Fixpoint repeat_string (c : string) (n : nat) : string :=
  match n with
  | O => ""
  | S n' => c ++ repeat_string c n'
  end.

(** [lines.append(x)], one or several in a row. *)
Definition extend {A} (lines new : list A) : list A := (lines ++ new)%list.

(** The characters of a [str], as iteration yields them. *)
Fixpoint chars (s : string) : list string :=
  match s with
  | EmptyString => []
  | String a rest => String a EmptyString :: chars rest
  end.

(** What the interpreter and the standard library compute and the source
    does not spell out: number and string rendering, JSON serialisation,
    case mapping. *)
Record runtime := Runtime {
  repr_float : SpecFloat.spec_float -> string;   (* repr(f) *)
  repr_str : string -> string;                   (* repr(s), quoted *)
  format_2f : value -> string;                   (* format(x, ".2f"), x a number *)
  format_pct1 : value -> string;                 (* format(x, ".1%"), x a number *)
  json_dumps_indent2 : value -> string;          (* json.dumps(v, indent=2) *)
  str_upper : string -> string                   (* s.upper() *)
}.

Section Rendering.
Variable rt : runtime.

(** [repr(v)] *)
Fixpoint repr (v : value) : string :=
  match v with
  | VNone => "None"
  | VBool true => "True"
  | VBool false => "False"
  | VInt z => string_of_Z z
  | VFloat f => repr_float rt f
  | VStr s => repr_str rt s
  | VList l =>
      "[" ++ join ", " ((fix reprs (l : list value) : list string :=
                           match l with
                           | [] => []
                           | x :: xs => repr x :: reprs xs
                           end) l) ++ "]"
  | VDict d =>
      "{" ++ join ", " ((fix items (d : list (string * value)) : list string :=
                           match d with
                           | [] => []
                           | (k, x) :: rest =>
                               (repr_str rt k ++ ": " ++ repr x) :: items rest
                           end) d) ++ "}"
  end.

(** [str(v)], also what an f-string field [{v}] renders. *)
Definition str (v : value) : string :=
  match v with
  | VStr s => s
  | _ => repr v
  end.

(** The first integer that [float(n)] rejects: half way between the
    largest double and [2**1024]. *)
Definition float_overflow : Z := 2 ^ 1024 - 2 ^ 970.

(** [float(v)] is defined: a [bool], a [float], or an [int] whose
    magnitude stays below [float_overflow]. *)
Definition converts_to_float (v : value) : bool :=
  match v with
  | VBool _ | VFloat _ => true
  | VInt z => Z.ltb (Z.abs z) float_overflow
  | _ => false
  end.

(** An f-string field with a numeric presentation type, [{v:.2f}] or
    [{v:.1%}]: a [float] and a [bool] format, an [int] is converted to
    [float] first and overflows when it is too large, a [str] rejects the
    code, anything else rejects a non-empty format string. *)
Definition format_numeric (code : string) (fmt : value -> string) (v : value)
  : result string :=
  match v with
  | VBool _ | VFloat _ => Ok (fmt v)
  | VInt z =>
      if Z.ltb (Z.abs z) float_overflow then Ok (fmt v)
      else Raise (OverflowError "int too large to convert to float")
  | VStr _ =>
      Raise (ValueError ("Unknown format code '" ++ code
                         ++ "' for object of type 'str'"))
  | _ =>
      Raise (TypeError ("unsupported format string passed to "
                        ++ type_name v ++ ".__format__"))
  end.

(** [sep.join(v)] on an arbitrary value: a list must hold only [str]; a
    [str] yields its characters, a [dict] its keys. *)
Fixpoint all_strings (i : nat) (l : list value) : result (list string) :=
  match l with
  | [] => Ok []
  | VStr s :: rest => rest' <- all_strings (S i) rest ;; Ok (s :: rest')
  | x :: _ =>
      Raise (TypeError ("sequence item " ++ string_of_Z (Z.of_nat i)
                        ++ ": expected str instance, " ++ type_name x ++ " found"))
  end.

Definition join_value (sep : string) (v : value) : result string :=
  match v with
  | VList l => parts <- all_strings 0 l ;; Ok (join sep parts)
  | VStr s => Ok (join sep (chars s))
  | VDict d => Ok (join sep (map fst d))
  | _ => Raise (TypeError "can only join an iterable")
  end.

(** [s.upper()] through attribute lookup. *)
Definition upper (v : value) : result string :=
  match v with
  | VStr s => Ok (str_upper rt s)
  | _ => Raise (AttributeError (type_name v) "upper")
  end.

(** [v.items()] *)
Definition items (v : value) : result (list (string * value)) :=
  match v with
  | VDict d => Ok d
  | _ => Raise (AttributeError (type_name v) "items")
  end.
End Rendering.

(** [s.strip()]: the white space characters below code point 256. *)
Definition isspace (a : ascii) : bool :=
  let n := nat_of_ascii a in
  (Nat.leb 9 n && Nat.leb n 13) || (Nat.leb 28 n && Nat.leb n 32)
  || Nat.eqb n 133 || Nat.eqb n 160.

Fixpoint lstrip (s : string) : string :=
  match s with
  | EmptyString => EmptyString
  | String a rest => if isspace a then lstrip rest else s
  end.

Fixpoint rstrip (s : string) : string :=
  match s with
  | EmptyString => EmptyString
  | String a rest =>
      match rstrip rest with
      | EmptyString => if isspace a then EmptyString else String a EmptyString
      | rest' => String a rest'
      end
  end.

Definition strip (s : string) : string := rstrip (lstrip s).

End Py.

Import Py.

(* ===================================================================== *)
(** ** app/models.py: the envelopes *)
(* ===================================================================== *)

(** [app/models.py] is imported by the three modules below and is not
    among the sources.  Each record carries the fields the call sites read
    or pass by keyword, with the types of section 3 of the specification. *)
Module models.

Module AgentMetadata.
(** Modelled from the spec: [AgentMetadata] of [app/models.py]; the
    endpoint is optional, as it is required only for [http]. *)
Record t := Build {
  name : string;
  type : string;
  endpoint : option string;
  timeout_ms : Z
}.
End AgentMetadata.

Module OutputModel.
(** Modelled from the spec: [OutputModel] of [app/models.py]; [result]
    takes any value (the adapter passes text, its callers also mappings). *)
Record t := Build {
  result : value;
  details : option string
}.
End OutputModel.

Module ErrorModel.
(** Modelled from the spec: [ErrorModel] of [app/models.py]. *)
Record t := Build {
  type : string;
  message : string
}.
End ErrorModel.

Module AgentRequest.
(** Modelled from the spec: [AgentRequest] of [app/models.py], its fields
    in the order the adapter passes them. *)
Record t := Build {
  request_id : string;
  agent_name : string;
  intent : string;
  input : dict;
  context : dict
}.

(** [handshake.dict()] *)
Definition dict (r : t) : value :=
  VDict [ ("request_id", VStr (request_id r));
          ("agent_name", VStr (agent_name r));
          ("intent", VStr (intent r));
          ("input", VDict (input r));
          ("context", VDict (context r)) ].
End AgentRequest.

Module AgentResponse.
(** Modelled from the spec: [AgentResponse] of [app/models.py]; [output]
    and [error] default to [None] (the adapter omits [output] on every
    error answer). *)
Record t := Build {
  request_id : string;
  agent_name : string;
  status : string;
  output : option OutputModel.t;
  error : option ErrorModel.t
}.
End AgentResponse.

Module CombinedAnswerRequest.
(** Modelled from the spec: [CombinedAnswerRequest] of [app/models.py];
    each tool output is a mapping. *)
Record t := Build {
  user_query : string;
  tool_outputs : list Py.dict;
  history_summary : option string
}.
End CombinedAnswerRequest.

Module CombinedAnswerResponse.
(** Modelled from the spec: [CombinedAnswerResponse] of [app/models.py]. *)
Record t := Build {
  combined_answer : string
}.
End CombinedAnswerResponse.

(** Modelled from the spec: the field readers of the decoders below, a
    required and an optional text field. *)
Definition required_str (d : Py.dict) (k : string) : result string :=
  match lookup d k with
  | Some (VStr s) => Ok s
  | Some _ => Raise (ValueError (k ++ ": str type expected"))
  | None => Raise (ValueError (k ++ ": field required"))
  end.

Definition optional_str (d : Py.dict) (k : string) : result (option string) :=
  match lookup d k with
  | Some (VStr s) => Ok (Some s)
  | Some VNone | None => Ok None
  | Some _ => Raise (ValueError (k ++ ": str type expected"))
  end.

(** Modelled from the spec: decoding [OutputModel{result, details}]. *)
Definition OutputModel_of (v : value) : result OutputModel.t :=
  match v with
  | VDict d =>
      match lookup d "result" with
      | Some r =>
          det <- optional_str d "details" ;;
          Ok (OutputModel.Build r det)
      | None => Raise (ValueError "result: field required")
      end
  | _ => Raise (ValueError "output: value is not a valid dict")
  end.

(** Modelled from the spec: decoding [ErrorModel{type, message}]. *)
Definition ErrorModel_of (v : value) : result ErrorModel.t :=
  match v with
  | VDict d =>
      ty <- required_str d "type" ;;
      msg <- required_str d "message" ;;
      Ok (ErrorModel.Build ty msg)
  | _ => Raise (ValueError "error: value is not a valid dict")
  end.

Definition optional_field {A} (d : Py.dict) (k : string)
           (decode : value -> result A) : result (option A) :=
  match lookup d k with
  | None | Some VNone => Ok None
  | Some v => a <- decode v ;; Ok (Some a)
  end.

(** Modelled from the spec: the validation that constructing an
    [AgentResponse] from the keys of a decoded body performs lives in
    [app/models.py], which is not among the sources.  This decoder checks
    what section 3 says of the envelope: the three string fields are
    required, [status] is one of the two enum members, [output] and
    [error] are optional sub-records, exactly one of them is populated,
    and [error] is present exactly when [status] is ["error"]; unknown
    keys are ignored.  A body that is not a mapping cannot be unpacked
    into keyword arguments. *)
Definition AgentResponse_of (body : value) : result AgentResponse.t :=
  match body with
  | VDict d =>
      rid <- required_str d "request_id" ;;
      nm <- required_str d "agent_name" ;;
      st <- required_str d "status" ;;
      if String.eqb st "success" || String.eqb st "error" then
        out <- optional_field d "output" OutputModel_of ;;
        err <- optional_field d "error" ErrorModel_of ;;
        match out, err with
        | Some _, None =>
            if String.eqb st "success" then Ok (AgentResponse.Build rid nm st out err)
            else Raise (ValueError "error: required when status is error")
        | None, Some _ =>
            if String.eqb st "error" then Ok (AgentResponse.Build rid nm st out err)
            else Raise (ValueError "error: present only when status is error")
        | _, _ => Raise (ValueError "exactly one of output and error is populated")
        end
      else Raise (ValueError "status: unexpected value")
  | _ =>
      Raise (TypeError ("app.models.AgentResponse() argument after ** must be a mapping, not "
                        ++ type_name body))
  end.

End models.

Import models.

(* ===================================================================== *)
(** ** app/agent_caller.py *)
(* ===================================================================== *)

Module agent_caller.

(** What [client.post] hands back: the status code and the outcome of
    [resp.json()]. *)
Record http_response := HttpResponse {
  status_code : Z;
  json : result value
}.

(** The world around one call. *)
Record environment := Environment {
  rt : runtime;
  httpx_installed : bool;                     (* [httpx is not None] *)
  uuid4 : string;                             (* [str(uuid.uuid4())] *)
  (* entering [httpx.AsyncClient(timeout=timeout_ms / 1000)], given
     [timeout_ms] *)
  open_client : Z -> result unit;
  (* [await client.post(endpoint, json=payload)] *)
  post : string -> value -> result http_response;
  (* the [AgentResponse] constructor applied to a decoded body *)
  AgentResponse_parse : value -> result AgentResponse.t
}.

Definition PROGRESS_AGENT_INTENT_MAP : list (string * string) :=
  [ ("progress.track", "accountability");
    ("progress.accountability", "accountability");
    ("goal.create", "freeform_message");
    ("goal.update", "goal");
    ("reflection.add", "freeform_message");
    ("reflection.analyze", "analyze_reflections");
    ("productivity.report", "generate_report");
    ("productivity.insights", "get_insights");
    ("productivity.freeform", "freeform_message") ].

Fixpoint table_lookup (tbl : list (string * string)) (k : string) : option string :=
  match tbl with
  | [] => None
  | (k', v) :: rest => if String.eqb k' k then Some v else table_lookup rest k
  end.

(** [tbl.get(k, default)] *)
Definition table_get (tbl : list (string * string)) (k default : string) : string :=
  match table_lookup tbl k with
  | Some v => v
  | None => default
  end.

Definition nl : string := String (ascii_of_nat 10) EmptyString.

Section Formatting.
Variable r : runtime.

(** One iteration of the goal-risk loop. *)
Definition goal_risk_line (goal_id : string) (risk_info : value) : result string :=
  risk_level <- get risk_info "risk" (VStr "unknown") ;;
  days <- get risk_info "days_to_deadline" (VStr "?") ;;
  eta <- get risk_info "eta" (VStr "N/A") ;;
  level <- upper r risk_level ;;
  Ok ("  - Goal " ++ prefix 8 goal_id ++ "...: " ++ level ++ " risk ("
      ++ str r days ++ " days to deadline, ETA: " ++ str r eta ++ ")").

Fixpoint goal_risk_lines (lines : list string) (items : list (string * value))
  : result (list string) :=
  match items with
  | [] => Ok lines
  | (goal_id, risk_info) :: rest =>
      line <- goal_risk_line goal_id risk_info ;;
      goal_risk_lines (extend lines [line]) rest
  end.

Definition format_accountability_response (data : dict) : result string :=
  let lines : list string := [] in
  (* Header *)
  let generated_at := dict_get data "generated_at" (VStr "") in
  let lines :=
    if truthy generated_at then
      (extend lines [ "Accountability Report (Generated: " ++ str r generated_at ++ ")";
                  repeat_string "-" 50 ])
    else lines in
  (* User info *)
  let user_id := dict_get data "user_id" (VStr "anonymous") in
  let lines := (extend lines [ "User: " ++ str r user_id; "" ]) in
  (* Performance Metrics *)
  let metrics := dict_get data "performance_metrics" (VDict []) in
  lines <-
    match metrics with
    | VDict m =>
        if truthy (dict_get m "message" VNone) then
          Ok (extend lines [ "Performance: " ++ str r (dict_get m "message" VNone) ])
        else
          rate <- format_numeric "%" (format_pct1 r)
                                 (dict_get m "completion_rate" (VInt 0)) ;;
          Ok (extend lines
              [ "Performance Metrics:";
                "  - Total Goals: " ++ str r (dict_get m "total_goals" (VInt 0));
                "  - Completed: " ++ str r (dict_get m "completed_goals" (VInt 0));
                "  - In Progress: " ++ str r (dict_get m "in_progress_goals" (VInt 0));
                "  - Missed: " ++ str r (dict_get m "missed_goals" (VInt 0));
                "  - Completion Rate: " ++ rate;
                "  - Productivity Trend: "
                  ++ str r (dict_get m "productivity_trend" (VStr "N/A")) ])
    | _ => Ok lines
    end ;;
  let lines := (extend lines [ "" ]) in
  (* Goal Risks *)
  let goal_risks := dict_get data "goal_risks" (VDict []) in
  lines <-
    (if truthy goal_risks then
       its <- items goal_risks ;;
       goal_risk_lines (extend lines [ "Goal Risks:" ]) its
     else Ok (extend lines [ "Goal Risks: None" ])) ;;
  let lines := (extend lines [ "" ]) in
  (* Reflection Summary *)
  let reflection := dict_get data "reflection_summary" (VDict []) in
  let lines :=
    match reflection with
    | VDict rs =>
        if truthy (dict_get rs "message" VNone) then
          (extend lines [ "Reflections: " ++ str r (dict_get rs "message" VNone) ])
        else (extend lines [ "Reflection Summary: Available" ])
    | _ => lines
    end in
  Ok (join nl lines).

Definition format_goal_created_response (data : dict) : result string :=
  let lines := [ "Goal Created Successfully!"; repeat_string "-" 30 ] in
  let goal_id := dict_get data "goal_id" (VStr "unknown") in
  let lines := (extend lines [ "Goal ID: " ++ str r goal_id ]) in
  let used_data := dict_get data "used_data" (VDict []) in
  lines <-
    (if truthy used_data then
       title <- get used_data "title" (VStr "N/A") ;;
       category <- get used_data "category" (VStr "N/A") ;;
       goal_type <- get used_data "goal_type" (VStr "N/A") ;;
       deadline <- get used_data "deadline" (VStr "N/A") ;;
       priority <- get used_data "priority" (VStr "N/A") ;;
       Ok (extend lines [ "Title: " ++ str r title;
                      "Category: " ++ str r category;
                      "Type: " ++ str r goal_type;
                      "Deadline: " ++ str r deadline;
                      "Priority: " ++ str r priority ])
     else Ok lines) ;;
  Ok (join nl lines).

Definition format_reflection_saved_response (data : dict) : string :=
  let lines := [ "Reflection Saved Successfully!"; repeat_string "-" 30 ] in
  let reflection_id := dict_get data "reflection_id" (VStr "") in
  let lines :=
    if truthy reflection_id then
      (extend lines [ "Reflection ID: " ++ str r reflection_id ])
    else lines in
  join nl lines.
End Formatting.


(** [len(v)] *)
Definition len (v : value) : result nat :=
  match v with
  | VStr s => Ok (String.length s)
  | VList l => Ok (List.length l)
  | VDict d => Ok (List.length d)
  | _ => Raise (TypeError ("object of type '" ++ type_name v ++ "' has no len()"))
  end.

(** [v[0]] *)
Definition first_item (v : value) : result value :=
  match v with
  | VList (x :: _) => Ok x
  | VList [] => Raise (IndexError "list index out of range")
  | VStr (String a _) => Ok (VStr (String a EmptyString))
  | VStr EmptyString => Raise (IndexError "string index out of range")
  | VDict _ => Raise (KeyError "0")
  | _ => Raise (TypeError ("'" ++ type_name v ++ "' object is not subscriptable"))
  end.

(** Lines 141-164: the [metadata] map of the request, with the first
    upload attached.  The log lines are evaluated for their f-string
    fields only ([len(base64_data)] may raise). *)
Definition build_metadata (context : dict) : result dict :=
  let metadata := [ ("language", VStr "en"); ("extra", VDict []) ] in
  let file_uploads := dict_get context "file_uploads" (VList []) in
  has_upload <-
    (if truthy file_uploads then n <- len file_uploads ;; Ok (Nat.ltb 0 n)
     else Ok false) ;;
  if has_upload : bool then
    first_file <- first_item file_uploads ;;
    base64_data <- get first_file "base64_data" (VStr "") ;;
    if truthy base64_data then
      let metadata := dict_set metadata "file_base64" base64_data in
      mime_type <- get first_file "mime_type" (VStr "application/octet-stream") ;;
      let metadata := dict_set metadata "mime_type" mime_type in
      filename <- get first_file "filename" (VStr "uploaded_file") ;;
      let metadata := dict_set metadata "filename" filename in
      _ <- len base64_data ;;
      Ok metadata
    else Ok metadata
  else Ok metadata.

Definition handshake_of (request_id : string) (agent_meta : AgentMetadata.t)
           (intent text : string) (metadata context : dict) : AgentRequest.t :=
  AgentRequest.Build request_id (AgentMetadata.name agent_meta) intent
                     [ ("text", VStr text); ("metadata", VDict metadata) ]
                     context.

(** Lines 182-212: the body that is POSTed, by agent name. *)
Definition build_payload (agent_meta : AgentMetadata.t) (intent text : string)
           (context : dict) (handshake : AgentRequest.t) : value :=
  if String.eqb (AgentMetadata.name agent_meta) "budget_tracker_agent" then
    VDict [ ("query", VStr text) ]
  else if String.eqb (AgentMetadata.name agent_meta) "progress_accountability_agent" then
    let user_id := dict_get context "user_id" (VStr "anonymous") in
    let task := table_get PROGRESS_AGENT_INTENT_MAP intent "accountability" in
    let params : dict := [] in
    let '(task, params) :=
      if String.eqb task "freeform_message" then
        (task, dict_set params "message" (VStr text))
      else if String.eqb task "goal" then
        ("freeform_message", dict_set params "message" (VStr text))
      else if String.eqb intent "goal.update"
              && truthy (dict_get context "goal_id" VNone)
              && truthy (dict_get context "progress" VNone) then
        (task, dict_set (dict_set params "goal_id" (dict_get context "goal_id" VNone))
                        "progress" (dict_get context "progress" VNone))
      else (task, params) in
    VDict [ ("user_id", user_id); ("task", VStr task); ("params", VDict params) ]
  else AgentRequest.dict handshake.

Definition error_response (request_id : string) (agent_meta : AgentMetadata.t)
           (type message : string) : AgentResponse.t :=
  AgentResponse.Build request_id (AgentMetadata.name agent_meta) "error"
                      None (Some (ErrorModel.Build type message)).

Definition success_response (request_id : string) (agent_meta : AgentMetadata.t)
           (result_text : value) (details : option string) : AgentResponse.t :=
  AgentResponse.Build request_id (AgentMetadata.name agent_meta) "success"
                      (Some (OutputModel.Build result_text details)) None.

(** The first [resp_data.get(...)] needs a mapping; past it the body is
    known to be one. *)
Definition with_dict {A} (resp_data : value) (k : dict -> result A) : result A :=
  match resp_data with
  | VDict d => k d
  | _ => Raise (AttributeError (type_name resp_data) "get")
  end.

Section Normalisation.
Variable env : environment.
Variable request_id : string.
Variable agent_meta : AgentMetadata.t.

Let dumps := json_dumps_indent2 (rt env).
Let success (result_text : value) (resp_data : dict) : result AgentResponse.t :=
  Ok (success_response request_id agent_meta result_text
                       (Some (dumps (VDict resp_data)))).
Let parse_error (parse_exc : exn) : result AgentResponse.t :=
  Ok (error_response request_id agent_meta "parse_error"
                     ("Failed to parse agent response: " ++ exn_text parse_exc)).

(** Lines 229-325: the body of the [try] that reads a reply of the
    progress/accountability agent. *)
Definition read_progress_response (resp : http_response) : result AgentResponse.t :=
  resp_data <- json resp ;;
  with_dict resp_data (fun d =>
    let status := dict_get d "status" (VStr "") in
    if eq_str status "ok" then
      let payload_data :=
        dict_get d "payload"
          (dict_get d "analysis"
             (dict_get d "report" (dict_get d "insights" (VDict [])))) in
      result_text <-
        match payload_data with
        | VDict pd =>
            if contains pd "generated_at" then
              format_accountability_response (rt env) pd
            else Ok (dumps payload_data)
        | _ => Ok (str (rt env) payload_data)
        end ;;
      success (VStr result_text) d
    else if eq_str status "created" then
      result_text <- format_goal_created_response (rt env) d ;;
      success (VStr result_text) d
    else if eq_str status "saved" then
      success (VStr (format_reflection_saved_response (rt env) d)) d
    else if eq_str status "incomplete" then
      let missing :=
        dict_get d "missing_fields" (dict_get d "missing_parts" (VList [])) in
      let message := dict_get d "message" (VStr "Some information is missing.") in
      listed <- (if truthy missing then join_value ", " missing
                 else Ok "unknown") ;;
      success (VStr (str (rt env) message ++ nl ++ "Missing: " ++ listed)) d
    else if eq_str status "error" then
      let error_msg :=
        dict_get d "message"
                 (VStr "Unknown error from progress_accountability_agent") in
      Ok (error_response request_id agent_meta "agent_error"
                         (str (rt env) error_msg))
    else
      result_text <-
        (if contains d "generated_at" || contains d "goal_risks"
            || contains d "performance_metrics" then
           text <- format_accountability_response (rt env) d ;; Ok (VStr text)
         else if contains d "reply" then Ok (dict_get d "reply" (VStr ""))
         else if contains d "message" then Ok (dict_get d "message" (VStr ""))
         else Ok (VStr (dumps (VDict d)))) ;;
      success result_text d).

(** Lines 227-336: that body under its [except Exception]. *)
Definition parse_progress_response (resp : http_response) : result AgentResponse.t :=
  try_except (read_progress_response resp) parse_error.

(** Lines 347-356: the text synthesized when the budget tracker sends
    no [response]. *)
Definition budget_parts (d : dict) : result (list string) :=
  let parts : list string := [] in
  parts <-
    (if contains d "remaining" then
       amount <- format_numeric "f" (format_2f (rt env)) (dict_get d "remaining" VNone) ;;
       Ok (extend parts [ "Remaining: $" ++ amount ])
     else Ok parts) ;;
  let parts :=
    if contains d "project_name" then
      extend parts [ "Project: " ++ str (rt env) (dict_get d "project_name" VNone) ]
    else parts in
  let parts :=
    if contains d "overshoot_risk" then
      extend parts [ "Overshoot Risk: " ++ str (rt env) (dict_get d "overshoot_risk" VNone) ]
    else parts in
  if contains d "recommendations" && truthy (dict_get d "recommendations" VNone) then
    listed <- join_value ", " (dict_get d "recommendations" VNone) ;;
    Ok (extend parts [ "Recommendations: " ++ listed ])
  else Ok parts.

(** Lines 340-379: the body of the [try] that reads a reply of the
    budget-tracking agent. *)
Definition read_budget_response (resp : http_response) : result AgentResponse.t :=
  resp_data <- json resp ;;
  with_dict resp_data (fun d =>
    if truthy (dict_get d "success" (VBool false)) then
      let result_text := dict_get d "response" VNone in
      result_text <-
        (if negb (truthy result_text) then
           parts <- budget_parts d ;;
           Ok (VStr (match parts with
                     | [] => str (rt env) (VDict d)
                     | _ => join ". " parts
                     end))
         else Ok result_text) ;;
      Ok (success_response request_id agent_meta result_text
                           (if truthy (VDict d) then Some (dumps (VDict d))
                            else None))
    else
      let error_msg :=
        dict_get d "error"
          (dict_get d "message" (VStr "Unknown error from budget tracker agent")) in
      Ok (error_response request_id agent_meta "agent_error"
                         (str (rt env) error_msg))).

(** Lines 338-391: that body under its [except Exception]. *)
Definition parse_budget_response (resp : http_response) : result AgentResponse.t :=
  try_except (read_budget_response resp) parse_error.

(** Lines 214-393: everything after the POST. *)
Definition handle_response (endpoint : string) (resp : http_response)
  : result AgentResponse.t :=
  if negb (Z.eqb (status_code resp) 200) then
    Ok (error_response request_id agent_meta "http_error"
                       ("HTTP " ++ string_of_Z (status_code resp)
                        ++ " calling " ++ endpoint))
  else if String.eqb (AgentMetadata.name agent_meta) "progress_accountability_agent" then
    parse_progress_response resp
  else if String.eqb (AgentMetadata.name agent_meta) "budget_tracker_agent" then
    parse_budget_response resp
  else
    body <- json resp ;;
    AgentResponse_parse env body.
End Normalisation.

(** What one call does: the bodies it POSTs (endpoint, JSON) and what it
    hands back to its caller. *)
Record call := Call {
  posted : list (string * value);
  returned : result AgentResponse.t
}.

Definition endpoint_truthy (agent_meta : AgentMetadata.t) : bool :=
  match AgentMetadata.endpoint agent_meta with
  | Some e => negb (String.eqb e "")
  | None => false
  end.

Definition endpoint_text (agent_meta : AgentMetadata.t) : string :=
  match AgentMetadata.endpoint agent_meta with
  | Some e => e
  | None => "None"
  end.

(** Lines 122-421.  [custom_input] is accepted and never read. *)
Definition call_agent (env : environment) (agent_meta : AgentMetadata.t)
           (intent text : string) (context : dict) (custom_input : option dict)
  : call :=
  let request_id := uuid4 env in
  match build_metadata context with
  | Raise e => Call [] (Raise e)
  | Ok metadata =>
      let handshake := handshake_of request_id agent_meta intent text metadata context in
      if String.eqb (AgentMetadata.type agent_meta) "http"
         && endpoint_truthy agent_meta && httpx_installed env then
        let endpoint := endpoint_text agent_meta in
        let network_error exc :=
          Ok (error_response request_id agent_meta "network_error" (exn_text exc)) in
        match open_client env (AgentMetadata.timeout_ms agent_meta) with
        | Raise exc => Call [] (network_error exc)
        | Ok _ =>
            let payload := build_payload agent_meta intent text context handshake in
            Call [ (endpoint, payload) ]
                 (try_except
                    (resp <- post env endpoint payload ;;
                     handle_response env request_id agent_meta endpoint resp)
                    network_error)
        end
      else if String.eqb (AgentMetadata.type agent_meta) "http"
              && negb (httpx_installed env) then
        Call [] (Ok (error_response request_id agent_meta "config_error"
                                    "httpx not installed for HTTP agent calls"))
      else if String.eqb (AgentMetadata.type agent_meta) "cli" then
        Call [] (Ok (error_response request_id agent_meta "not_implemented"
                                    "CLI agent execution is not implemented"))
      else
        Call [] (Ok (error_response request_id agent_meta "config_error"
                                    "Agent endpoint/command not configured"))
  end.

End agent_caller.

(* ===================================================================== *)
(** ** The language model as both LLM-backed modules see it *)
(* ===================================================================== *)

Module openrouter.

(** One entry of [response.choices]: [message.content], which the API
    may leave [None]. *)
Definition choice := option string.

Record environment := Environment {
  rt : runtime;
  OpenAI_imported : bool;                       (* [OpenAI is not None] *)
  OPENROUTER_API_KEY : option string;           (* [os.getenv("OPENROUTER_API_KEY")] *)
  OPENROUTER_MODEL : string;
  (* [OpenAI(base_url=..., api_key=...)] *)
  OpenAI : string -> string -> result unit;
  (* [client.chat.completions.create(model=..., messages=[system, user])] *)
  create : string -> string -> string -> result (list choice)
}.

(** [OpenAI is None or not api_key] *)
Definition unconfigured (env : environment) : bool :=
  negb (OpenAI_imported env)
  || match OPENROUTER_API_KEY env with
     | Some k => String.eqb k ""
     | None => true
     end.

Definition api_key_text (env : environment) : string :=
  match OPENROUTER_API_KEY env with
  | Some k => k
  | None => ""
  end.

(** [response.choices[0].message.content.strip()] *)
Definition stripped_content (c : choice) : result string :=
  match c with
  | Some content => Ok (strip content)
  | None => Raise (AttributeError "NoneType" "strip")
  end.

(** The shape both callers share:
    [try: response = create(...); if response.choices: return f(...)
     except Exception: return fallback] and then [return fallback]. *)
Definition complete_or {A} (env : environment) (system_prompt user_prompt : string)
           (wrap : string -> A) (fallback : A) : A :=
  match
    try_except
      (choices <- create env (OPENROUTER_MODEL env) system_prompt user_prompt ;;
       match choices with
       | c :: _ => content <- stripped_content c ;; Ok (Some (wrap content))
       | [] => Ok None
       end)
      (fun exc => Ok (Some fallback))
  with
  | Ok (Some answer) => answer
  | _ => fallback
  end.

End openrouter.

(* ===================================================================== *)
(** ** app/combine.py *)
(* ===================================================================== *)

Module combine.
Import openrouter.

Definition system_prompt : string :=
  "You are a response combiner. Given the user's query and multiple tool outputs, "
  ++ "produce a single concise answer that integrates the results. "
  ++ "If some tools failed, still use the successful outputs and briefly note the failure. "
  ++ "Be direct and avoid repetition.".

Section Fallback.
Variable r : runtime.

(** The body of the [for entry in req.tool_outputs] loop. *)
Definition stitch_entry (lines : list string) (entry : dict) : list string :=
  let agent := dict_get entry "agent" VNone in
  let status := dict_get entry "status" VNone in
  let result := dict_get entry "result" VNone in
  let error := dict_get entry "error" VNone in
  if eq_str status "success" then
    extend lines [ str r agent ++ ": " ++ str r result ]
  else
    extend lines [ str r agent ++ ": failed (" ++ str r error ++ ")" ].

Definition _fallback (req : CombinedAnswerRequest.t) : CombinedAnswerResponse.t :=
  let lines := fold_left stitch_entry (CombinedAnswerRequest.tool_outputs req) [] in
  let stitched :=
    match lines with
    | [] => "No tool outputs available."
    | _ => join " | " lines
    end in
  CombinedAnswerResponse.Build stitched.
End Fallback.

Definition user_payload (req : CombinedAnswerRequest.t) : dict :=
  let payload :=
    [ ("user_query", VStr (CombinedAnswerRequest.user_query req));
      ("tool_outputs", VList (map VDict (CombinedAnswerRequest.tool_outputs req))) ] in
  match CombinedAnswerRequest.history_summary req with
  | Some summary =>
      if negb (String.eqb summary "") then
        dict_set payload "history_summary" (VStr summary)
      else payload
  | None => payload
  end.

Definition combine_tool_outputs (env : environment) (req : CombinedAnswerRequest.t)
  : CombinedAnswerResponse.t :=
  if unconfigured env then _fallback (rt env) req
  else
    match OpenAI env "https://openrouter.ai/api/v1" (api_key_text env) with
    | Raise exc => _fallback (rt env) req
    | Ok _ =>
        let user_prompt := json_dumps_indent2 (rt env) (VDict (user_payload req)) in
        complete_or env system_prompt user_prompt
                    CombinedAnswerResponse.Build (_fallback (rt env) req)
    end.

End combine.

(* ===================================================================== *)
(** ** app/history.py *)
(* ===================================================================== *)

Module history.
Import openrouter.

Definition system_prompt : string :=
  "Summarize the conversation so far in 2-3 concise sentences. "
  ++ "Capture user goals, key details, and any decisions or constraints. "
  ++ "Do not invent new facts.".

(** [history[-6:]] *)
Definition last6 {A} (history : list A) : list A :=
  skipn (List.length history - 6) history.

Definition fallback_prefix : string := "Conversation summary (fallback): ".

Section Fallback.
Variable r : runtime.

Definition _fallback (history : list dict) : string :=
  let parts :=
    map (fun m => str r (dict_get m "role" VNone) ++ ": "
                  ++ str r (dict_get m "content" (VStr "")))
        (last6 history) in
  let joined := join " | " parts in
  fallback_prefix ++ prefix 500 joined.
End Fallback.

Definition summarize_history (env : environment) (history : list dict) : string :=
  match history with
  | [] => ""
  | _ =>
      if unconfigured env then _fallback (rt env) history
      else
        match OpenAI env "https://openrouter.ai/api/v1" (api_key_text env) with
        | Raise exc => _fallback (rt env) history
        | Ok _ =>
            let user_prompt :=
              json_dumps_indent2 (rt env)
                (VDict [ ("history", VList (map VDict (last6 history))) ]) in
            complete_or env system_prompt user_prompt (fun s => s)
                        (_fallback (rt env) history)
        end
  end.

End history.

(* ===================================================================== *)
(** ** Vocabulary of the properties *)
(* ===================================================================== *)

Import agent_caller.

(** [len(v)] is defined. *)
Definition sized (v : value) : bool :=
  match v with
  | VStr _ | VList _ | VDict _ => true
  | _ => false
  end.

(** An upload record: a mapping whose [base64_data], when given and not
    empty, is text (or another sized value). *)
Definition well_formed_upload (upload : value) : bool :=
  match upload with
  | VDict f =>
      let base64_data := dict_get f "base64_data" (VStr "") in
      negb (truthy base64_data) || sized base64_data
  | _ => false
  end.

(** A well-formed [context]: [file_uploads] is missing, falsy, or a list
    that starts with an upload record. *)
Definition well_formed_context (context : dict) : bool :=
  let file_uploads := dict_get context "file_uploads" (VList []) in
  negb (truthy file_uploads)
  || match file_uploads with
     | VList (first_file :: _) => well_formed_upload first_file
     | _ => false
     end.

(** The HTTP branch of the dispatch is taken. *)
Definition dispatches_http (env : environment) (agent_meta : AgentMetadata.t) : bool :=
  String.eqb (AgentMetadata.type agent_meta) "http"
  && endpoint_truthy agent_meta && httpx_installed env.

(** The body the call builds for its POST. *)
Definition payload_of (env : environment) (agent_meta : AgentMetadata.t)
           (intent text : string) (context : dict) : result value :=
  metadata <- build_metadata context ;;
  Ok (build_payload agent_meta intent text context
        (handshake_of (uuid4 env) agent_meta intent text metadata context)).

(** The exchange with the agent: entering the client, then the POST. *)
Definition exchange (env : environment) (agent_meta : AgentMetadata.t)
           (payload : value) : result http_response :=
  _ <- open_client env (AgentMetadata.timeout_ms agent_meta) ;;
  post env (endpoint_text agent_meta) payload.

Definition populated {A} (o : option A) : bool :=
  match o with
  | Some _ => true
  | None => false
  end.

(** The envelope invariant: exactly one of [output] and [error], and
    [error] exactly when [status] is ["error"]. *)
Definition envelope (resp : AgentResponse.t) : bool :=
  xorb (populated (AgentResponse.output resp)) (populated (AgentResponse.error resp))
  && Bool.eqb (populated (AgentResponse.error resp))
              (String.eqb (AgentResponse.status resp) "error").

(** An error envelope of a given type. *)
Definition is_error (resp : AgentResponse.t) (type : string) : Prop :=
  AgentResponse.status resp = "error"
  /\ AgentResponse.output resp = None
  /\ exists message, AgentResponse.error resp = Some (ErrorModel.Build type message).

Definition special_agent (agent_meta : AgentMetadata.t) : bool :=
  String.eqb (AgentMetadata.name agent_meta) "progress_accountability_agent"
  || String.eqb (AgentMetadata.name agent_meta) "budget_tracker_agent".


(** The failure paths of a call, each with the error type its [return]
    writes: no usable transport (lines 401-421), an exception from the
    client (line 394), a status other than 200 (line 216), a body of an
    agent without adapter that is not JSON or that the envelope
    constructor rejects (lines 393-394), an exception inside a reader
    (lines 326 and 380), and a failure the agent itself reports (lines 293
    and 368). *)
Inductive failed_dispatch (env : environment) (agent_meta : AgentMetadata.t)
          (payload : value) : string -> Prop :=
| no_client_library :
    AgentMetadata.type agent_meta = "http" ->
    httpx_installed env = false ->
    failed_dispatch env agent_meta payload "config_error"
| cli_transport :
    AgentMetadata.type agent_meta = "cli" ->
    failed_dispatch env agent_meta payload "not_implemented"
| not_configured :
    dispatches_http env agent_meta = false ->
    String.eqb (AgentMetadata.type agent_meta) "http" && negb (httpx_installed env)
    = false ->
    AgentMetadata.type agent_meta <> "cli" ->
    failed_dispatch env agent_meta payload "config_error"
| transport_failed (exc : exn) :
    dispatches_http env agent_meta = true ->
    exchange env agent_meta payload = Raise exc ->
    failed_dispatch env agent_meta payload "network_error"
| status_not_200 (resp : http_response) :
    dispatches_http env agent_meta = true ->
    exchange env agent_meta payload = Ok resp ->
    status_code resp <> 200%Z ->
    failed_dispatch env agent_meta payload "http_error"
| body_not_json (resp : http_response) (exc : exn) :
    dispatches_http env agent_meta = true ->
    exchange env agent_meta payload = Ok resp ->
    status_code resp = 200%Z ->
    special_agent agent_meta = false ->
    json resp = Raise exc ->
    failed_dispatch env agent_meta payload "network_error"
| body_rejected (resp : http_response) (body : value) (exc : exn) :
    dispatches_http env agent_meta = true ->
    exchange env agent_meta payload = Ok resp ->
    status_code resp = 200%Z ->
    special_agent agent_meta = false ->
    json resp = Ok body ->
    AgentResponse_parse env body = Raise exc ->
    failed_dispatch env agent_meta payload "network_error"
| progress_reader_raised (resp : http_response) (exc : exn) :
    dispatches_http env agent_meta = true ->
    exchange env agent_meta payload = Ok resp ->
    status_code resp = 200%Z ->
    AgentMetadata.name agent_meta = "progress_accountability_agent" ->
    read_progress_response env (uuid4 env) agent_meta resp = Raise exc ->
    failed_dispatch env agent_meta payload "parse_error"
| budget_reader_raised (resp : http_response) (exc : exn) :
    dispatches_http env agent_meta = true ->
    exchange env agent_meta payload = Ok resp ->
    status_code resp = 200%Z ->
    AgentMetadata.name agent_meta = "budget_tracker_agent" ->
    read_budget_response env (uuid4 env) agent_meta resp = Raise exc ->
    failed_dispatch env agent_meta payload "parse_error"
| progress_reported_error (resp : http_response) (d : dict) :
    dispatches_http env agent_meta = true ->
    exchange env agent_meta payload = Ok resp ->
    status_code resp = 200%Z ->
    AgentMetadata.name agent_meta = "progress_accountability_agent" ->
    json resp = Ok (VDict d) ->
    dict_get d "status" (VStr "") = VStr "error" ->
    failed_dispatch env agent_meta payload "agent_error"
| budget_reported_failure (resp : http_response) (d : dict) :
    dispatches_http env agent_meta = true ->
    exchange env agent_meta payload = Ok resp ->
    status_code resp = 200%Z ->
    AgentMetadata.name agent_meta = "budget_tracker_agent" ->
    json resp = Ok (VDict d) ->
    truthy (dict_get d "success" (VBool false)) = false ->
    failed_dispatch env agent_meta payload "agent_error".

(** [answer] is a returned error envelope: [status = "error"], no output,
    and an [ErrorModel] with this type and this message. *)
Definition error_answer (answer : result AgentResponse.t) (type message : string)
  : Prop :=
  exists r,
    answer = Ok r
    /\ AgentResponse.status r = "error"
    /\ AgentResponse.output r = None
    /\ AgentResponse.error r = Some (ErrorModel.Build type message).

(** [answer] is a returned success envelope: [status = "success"], no
    error, and an [OutputModel] with this result and these details. *)
Definition success_answer (answer : result AgentResponse.t) (result_text : value)
           (details : option string) : Prop :=
  exists r,
    answer = Ok r
    /\ AgentResponse.status r = "success"
    /\ AgentResponse.output r = Some (OutputModel.Build result_text details)
    /\ AgentResponse.error r = None.

(** The request that lines 138-172 build. *)
Definition request_of (env : environment) (agent_meta : AgentMetadata.t)
           (intent text : string) (context : dict) : result AgentRequest.t :=
  metadata <- build_metadata context ;;
  Ok (handshake_of (uuid4 env) agent_meta intent text metadata context).

(** [request.input["metadata"]] *)
Definition metadata_of (request : AgentRequest.t) : option value :=
  lookup (AgentRequest.input request) "metadata".

(** A field of a posted JSON object. *)
Definition field (payload : value) (k : string) : option value :=
  match payload with
  | VDict d => lookup d k
  | _ => None
  end.

(* ===================================================================== *)
(** ** Concrete agents, contexts and replies

    The data the closed examples run on.  The renderers of
    [plain_runtime] are stand-ins: the examples that quote a rendered
    text quote it with the stand-in in place. *)
(* ===================================================================== *)

Module samples.

Definition plain_runtime : runtime :=
  {| repr_float := fun _ => "<float>";
     repr_str := fun s => "'" ++ s ++ "'";
     format_2f := fun v => "<" ++ type_name v ++ ":.2f>";
     format_pct1 := fun v => "<" ++ type_name v ++ ":.1%>";
     json_dumps_indent2 := fun _ => "<json>";
     str_upper := fun s => s |}.

(** An agent that answers every POST with [reply]; bodies are decoded by
    the shape-only constructor. *)
Definition answering (reply : result http_response) : environment :=
  {| rt := plain_runtime;
     httpx_installed := true;
     uuid4 := "00000000-0000-4000-8000-000000000001";
     open_client := fun _ => Ok tt;
     post := fun _ _ => reply;
     AgentResponse_parse := AgentResponse_of |}.

Definition unreachable : environment :=
  answering (Raise (Exn "ConnectError" "All connection attempts failed")).

Definition without_httpx : environment :=
  {| rt := plain_runtime;
     httpx_installed := false;
     uuid4 := "00000000-0000-4000-8000-000000000001";
     open_client := fun _ => Ok tt;
     post := fun _ _ => Raise (Exn "RuntimeError" "no client");
     AgentResponse_parse := AgentResponse_of |}.

Definition progress_agent : AgentMetadata.t :=
  AgentMetadata.Build "progress_accountability_agent" "http"
                      (Some "http://progress.local/task") 30000.

Definition budget_agent : AgentMetadata.t :=
  AgentMetadata.Build "budget_tracker_agent" "http"
                      (Some "http://budget.local/query") 30000.

Definition summarizer_agent : AgentMetadata.t :=
  AgentMetadata.Build "document_summarizer_agent" "http"
                      (Some "http://summarizer.local/handle") 30000.

Definition cli_agent : AgentMetadata.t :=
  AgentMetadata.Build "local_tool" "cli" None 30000.

Definition grpc_agent : AgentMetadata.t :=
  AgentMetadata.Build "remote_tool" "grpc" (Some "grpc://tool.local") 30000.

Definition unconfigured_agent : AgentMetadata.t :=
  AgentMetadata.Build "draft_agent" "http" None 30000.

Definition report_pdf : value :=
  VDict [ ("base64_data", VStr "JVBERi0xLjQ=");
          ("mime_type", VStr "application/pdf");
          ("filename", VStr "report.pdf") ].

Definition notes_txt : value :=
  VDict [ ("base64_data", VStr "bm90ZXM=");
          ("mime_type", VStr "text/plain");
          ("filename", VStr "notes.txt") ].

Definition empty_upload : value :=
  VDict [ ("base64_data", VStr "");
          ("mime_type", VStr "text/plain");
          ("filename", VStr "empty.txt") ].

Definition two_uploads : dict :=
  [ ("user_id", VStr "u-17"); ("file_uploads", VList [ report_pdf; notes_txt ]) ].

Definition direct_update : dict :=
  [ ("user_id", VStr "u-17"); ("goal_id", VStr "g-42"); ("progress", VInt 50) ].

Definition ok_reply (body : value) : result http_response :=
  Ok (HttpResponse 200 (Ok body)).

(** A 200 reply that carries a web page instead of JSON. *)
Definition html_page : http_response :=
  HttpResponse 200 (Raise (Exn "JSONDecodeError"
                               "Expecting value: line 1 column 1 (char 0)")).

(** A 200 reply whose JSON body is a list. *)
Definition json_list : http_response :=
  HttpResponse 200 (Ok (VList [ VStr "ok" ])).

(** Replies of the progress/accountability agent. *)
Definition incomplete_goal : dict :=
  [ ("status", VStr "incomplete");
    ("message", VStr "I need a bit more to create this goal.");
    ("missing_fields", VList [ VStr "deadline"; VStr "priority" ]) ].

Definition failed_goal : dict :=
  [ ("status", VStr "error"); ("message", VStr "Goal g-42 not found") ].

Definition chat_reply : dict :=
  [ ("reply", VStr "Nice work this week."); ("message", VStr "ignored") ].

(** An accountability payload and a goal-creation reply. *)
Definition accountability_report : dict :=
  [ ("generated_at", VStr "2025-01-15T10:00:00");
    ("user_id", VStr "u-17");
    ("performance_metrics",
     VDict [ ("total_goals", VInt 4); ("completed_goals", VInt 1);
             ("completion_rate", VInt 0) ]);
    ("goal_risks",
     VDict [ ("g-42-abcdef", VDict [ ("risk", VStr "high");
                                     ("days_to_deadline", VInt 3) ]) ]) ].

Definition goal_created : dict :=
  [ ("status", VStr "created"); ("goal_id", VStr "g-43");
    ("used_data", VDict [ ("title", VStr "Run a marathon") ]) ].

(** Replies of the budget-tracking agent. *)
Definition budget_refused : dict :=
  [ ("success", VBool false);
    ("error", VStr "No budget found for project Apollo");
    ("message", VStr "lookup failed") ].

Definition budget_answer_with_odd_fields : dict :=
  [ ("success", VBool true);
    ("response", VStr "You have 40 dollars left.");
    ("remaining", VStr "forty") ].

Definition unavailable : http_response :=
  HttpResponse 503 (Raise (Exn "JSONDecodeError" "Expecting value")).

(** A body in the canonical shape that reports success and carries
    neither [output] nor [error]. *)
Definition bare_success : value :=
  VDict [ ("request_id", VStr "r-1");
          ("agent_name", VStr "document_summarizer_agent");
          ("status", VStr "success") ].

(** A budget reply without [response]: three of the four fields. *)
Definition budget_fields : dict :=
  [ ("success", VBool true);
    ("remaining", VInt 1250);
    ("project_name", VStr "Apollo");
    ("recommendations", VList [ VStr "Cut travel"; VStr "Freeze hiring" ]) ].

(** The same reply with [remaining] too large for a [float]. *)
Definition budget_remaining_too_large : dict :=
  [ ("success", VBool true); ("remaining", VInt (10 ^ 400)) ].

(** The same reply with [remaining] sent as text. *)
Definition budget_remaining_as_text : dict :=
  [ ("success", VBool true); ("remaining", VStr "1250.00") ].

(** A reply in the canonical shape, from the document summarizer. *)
Definition summary_reply : value :=
  VDict [ ("request_id", VStr "r-1");
          ("agent_name", VStr "document_summarizer_agent");
          ("status", VStr "success");
          ("output", VDict [ ("result", VStr "The report covers the first quarter.") ]) ].

Definition budget_with_response : value :=
  VDict [ ("success", VBool true); ("response", VStr "You have 40 dollars left.") ].

End samples.

(** The metadata when the upload list starts with a record: a function of
    that record alone. *)
Definition metadata_for (first_file : dict) : dict :=
  let base64_data := dict_get first_file "base64_data" (VStr "") in
  if truthy base64_data then
    [ ("language", VStr "en"); ("extra", VDict []);
      ("file_base64", base64_data);
      ("mime_type", dict_get first_file "mime_type" (VStr "application/octet-stream"));
      ("filename", dict_get first_file "filename" (VStr "uploaded_file")) ]
  else [ ("language", VStr "en"); ("extra", VDict []) ].

(** [", ".join(v)] is defined: a list of [str], a [str], or a mapping. *)
Definition joinable (v : value) : bool :=
  match v with
  | VList l => forallb (fun x => match x with VStr _ => true | _ => false end) l
  | VStr _ | VDict _ => true
  | _ => false
  end.

(** The fields of a budget reply have the types its formatting needs:
    [remaining], when present, is a number that converts to [float];
    [recommendations], when present and truthy, can be joined. *)
Definition budget_fields_typed (d : dict) : bool :=
  match lookup d "remaining" with
  | Some v => converts_to_float v
  | None => true
  end
  && match lookup d "recommendations" with
     | Some v => negb (truthy v) || joinable v
     | None => true
     end.

(** One part per field that is present, in the order remaining, project,
    overshoot risk, recommendations. *)
Definition part_for (d : dict) (k : string) (render : value -> string) : list string :=
  match lookup d k with
  | Some v => [ render v ]
  | None => []
  end.

Definition joined_or_empty (r : runtime) (v : value) : string :=
  match join_value ", " v with
  | Ok s => s
  | Raise _ => ""
  end.

Definition expected_budget_parts (r : runtime) (d : dict) : list string :=
  List.concat
    [ part_for d "remaining" (fun v => "Remaining: $" ++ format_2f r v);
      part_for d "project_name" (fun v => "Project: " ++ str r v);
      part_for d "overshoot_risk" (fun v => "Overshoot Risk: " ++ str r v);
      match lookup d "recommendations" with
      | Some v =>
          if truthy v then [ "Recommendations: " ++ joined_or_empty r v ] else []
      | None => []
      end ].

(** One tool output as the fallback words it. *)
Definition rendered_entry (r : runtime) (entry : dict) : string :=
  let agent := str r (dict_get entry "agent" VNone) in
  if eq_str (dict_get entry "status" VNone) "success" then
    agent ++ ": " ++ str r (dict_get entry "result" VNone)
  else
    agent ++ ": failed (" ++ str r (dict_get entry "error" VNone) ++ ")".

(** The stitched answer: the entries in input order, or the fixed
    sentence. *)
Definition rendered_outputs (r : runtime) (tool_outputs : list dict) : string :=
  match tool_outputs with
  | [] => "No tool outputs available."
  | _ => join " | " (map (rendered_entry r) tool_outputs)
  end.

(** One turn of the conversation as the fallback words it. *)
Definition rendered_turn (r : runtime) (turn : dict) : string :=
  str r (dict_get turn "role" VNone) ++ ": " ++ str r (dict_get turn "content" (VStr "")).

Module llm_samples.

(** No API key in the process environment. *)
Definition no_api_key : openrouter.environment :=
  {| openrouter.rt := samples.plain_runtime;
     openrouter.OpenAI_imported := true;
     openrouter.OPENROUTER_API_KEY := None;
     openrouter.OPENROUTER_MODEL := "google/gemini-2.5-flash-lite";
     openrouter.OpenAI := fun _ _ => Ok tt;
     openrouter.create := fun _ _ _ => Ok [ Some "An answer from the model." ] |}.

(** A configured model whose first choice has no content. *)
Definition silent_model : openrouter.environment :=
  {| openrouter.rt := samples.plain_runtime;
     openrouter.OpenAI_imported := true;
     openrouter.OPENROUTER_API_KEY := Some "sk-or-test";
     openrouter.OPENROUTER_MODEL := "google/gemini-2.5-flash-lite";
     openrouter.OpenAI := fun _ _ => Ok tt;
     openrouter.create := fun _ _ _ => Ok [ None ] |}.

(** A configured model that answers, with white space around the text. *)
Definition answering_model : openrouter.environment :=
  {| openrouter.rt := samples.plain_runtime;
     openrouter.OpenAI_imported := true;
     openrouter.OPENROUTER_API_KEY := Some "sk-or-test";
     openrouter.OPENROUTER_MODEL := "google/gemini-2.5-flash-lite";
     openrouter.OpenAI := fun _ _ => Ok tt;
     openrouter.create := fun _ _ _ => Ok [ Some "  Forty dollars are left. " ] |}.

Definition tool_outputs : list dict :=
  [ [ ("agent", VStr "budget_tracker_agent"); ("status", VStr "success");
      ("result", VStr "Remaining: 40") ];
    [ ("agent", VStr "deadline_guardian_agent"); ("status", VStr "error");
      ("error", VStr "HTTP 503 calling http://deadline.local") ] ].

Definition first_request : CombinedAnswerRequest.t :=
  CombinedAnswerRequest.Build "What is left of the budget?" tool_outputs None.

Definition second_request : CombinedAnswerRequest.t :=
  CombinedAnswerRequest.Build "Are we late?" tool_outputs
                              (Some "The user asked about project Apollo.").

Definition turn (role content : string) : dict :=
  [ ("role", VStr role); ("content", VStr content) ].

Definition conversation : list dict :=
  [ turn "user" "one"; turn "assistant" "two"; turn "user" "three";
    turn "assistant" "four"; turn "user" "five"; turn "assistant" "six";
    turn "user" "seven" ].

End llm_samples.

(* ===================================================================== *)
(** ** Vocabulary of the further properties *)
(* ===================================================================== *)

(** The error types the adapter writes. *)
Definition error_types : list string :=
  [ "http_error"; "network_error"; "config_error";
    "not_implemented"; "parse_error"; "agent_error" ].

(** A response the adapter assembled itself: an error answer of one of
    its types, or a success answer. *)
Inductive built (request_id : string) (agent_meta : AgentMetadata.t)
  : AgentResponse.t -> Prop :=
| built_error (type message : string) :
    In type error_types ->
    built request_id agent_meta (error_response request_id agent_meta type message)
| built_success (result_text : value) (details : option string) :
    built request_id agent_meta
          (success_response request_id agent_meta result_text details).

(** A response that is the decoding of a 200 body from an agent without
    an adapter of its own. *)
Definition decoded (env : environment) (agent_meta : AgentMetadata.t)
           (intent text : string) (context : dict) (r : AgentResponse.t) : Prop :=
  special_agent agent_meta = false
  /\ exists payload reply body,
       payload_of env agent_meta intent text context = Ok payload
       /\ exchange env agent_meta payload = Ok reply
       /\ status_code reply = 200%Z
       /\ json reply = Ok body
       /\ AgentResponse_parse env body = Ok r.

(** The metrics block formats: it is not a mapping (and is skipped), it
    has a truthy [message], or its [completion_rate] is a number that
    converts to [float]. *)
Definition metrics_typed (metrics : value) : bool :=
  match metrics with
  | VDict m =>
      truthy (dict_get m "message" VNone)
      || converts_to_float (dict_get m "completion_rate" (VInt 0))
  | _ => true
  end.

(** One goal-risk entry formats: a mapping whose [risk] is text. *)
Definition risk_typed (risk_info : value) : bool :=
  match risk_info with
  | VDict info =>
      match dict_get info "risk" (VStr "unknown") with
      | VStr _ => true
      | _ => false
      end
  | _ => false
  end.

(** The goal-risk table formats: it is falsy, or a mapping of entries
    that format. *)
Definition goal_risks_typed (goal_risks : value) : bool :=
  negb (truthy goal_risks)
  || match goal_risks with
     | VDict risks => forallb (fun item => risk_typed (snd item)) risks
     | _ => false
     end.

Definition accountability_typed (data : dict) : bool :=
  metrics_typed (dict_get data "performance_metrics" (VDict []))
  && goal_risks_typed (dict_get data "goal_risks" (VDict [])).

(** The intents whose text is sent to the progress/accountability agent
    as a free-form message. *)
Definition freeform_intents : list string :=
  [ "goal.create"; "goal.update"; "reflection.add"; "productivity.freeform" ].

(** The statuses the reader of the progress/accountability agent knows. *)
Definition recognised (status : value) : bool :=
  existsb (eq_str status) [ "ok"; "created"; "saved"; "incomplete"; "error" ].

(** [missing] of an "incomplete" reply. *)
Definition missing_of (d : dict) : value :=
  dict_get d "missing_fields" (dict_get d "missing_parts" (VList [])).

(** What the summarizer and the combiner hand back when the model was
    asked: the stripped text of the first choice, when there is one. *)
Definition model_answer (env : openrouter.environment) (system_prompt user_prompt : string)
  : option string :=
  match openrouter.create env (openrouter.OPENROUTER_MODEL env) system_prompt user_prompt with
  | Ok (Some content :: _) => Some (strip content)
  | _ => None
  end.

(* ===================================================================== *)
(** ** Proof tactics *)
(* ===================================================================== *)

(** Case analysis along the branches of a reader: take the scrutinee of
    a [match] in [H] apart until [H] equates two results. *)
Ltac leaf H :=
  first [ discriminate H | injection H as <-; reflexivity ].

Ltac branches H :=
  first
    [ leaf H
    | match type of H with
      | context [match ?x with _ => _ end] => destruct x eqn:?; branches H
      end ].

(** The same walk, closing each branch that returns with [tac]. *)
Ltac branches_by tac H :=
  first
    [ discriminate H
    | injection H as <-; tac
    | match type of H with
      | context [match ?x with _ => _ end] => destruct x eqn:?; branches_by tac H
      end ].

(* ===================================================================== *)
(** ** Request construction *)
(* ===================================================================== *)

(** A well-formed context is exactly one on which the metadata code runs
    to its end. *)
Lemma build_metadata_well_formed (context : dict) :
  well_formed_context context = true ->
  exists metadata, build_metadata context = Ok metadata.
Proof.
  unfold well_formed_context, build_metadata.
  destruct (dict_get context "file_uploads" (VList [])) as [| b | z | f | s | l | d];
    cbn [truthy negb orb].
  - cbn; eauto.
  - destruct b; cbn; [discriminate | eauto].
  - destruct (Z.eqb z 0); cbn; [eauto | discriminate].
  - destruct f; cbn; try discriminate; eauto.
  - destruct (String.eqb s ""); cbn; [eauto | discriminate].
  - destruct l as [| first_file rest]; cbn [negb orb]; [cbn; eauto |].
    unfold well_formed_upload.
    destruct first_file; try discriminate.
    cbn [len bind Nat.ltb Nat.leb List.length first_item get].
    destruct (truthy (dict_get d "base64_data" (VStr ""))) eqn:Hb;
      cbn [negb orb bind]; [| eauto].
    destruct (dict_get d "base64_data" (VStr "")); cbn; try discriminate; eauto.
  - destruct d; cbn; [eauto | discriminate].
Qed.

Lemma build_metadata_ill_formed (context : dict) :
  well_formed_context context = false ->
  exists exc, build_metadata context = Raise exc.
Proof.
  unfold well_formed_context, build_metadata.
  destruct (dict_get context "file_uploads" (VList [])) as [| b | z | f | s | l | d];
    cbn [truthy negb orb].
  - discriminate.
  - destruct b; cbn; [eauto | discriminate].
  - destruct (Z.eqb z 0); cbn; [discriminate | eauto].
  - destruct f; cbn; try discriminate; eauto.
  - destruct s as [| a s']; cbn; [discriminate | eauto].
  - destruct l as [| first_file rest]; cbn [negb orb]; [discriminate |].
    unfold well_formed_upload.
    cbn [len bind Nat.ltb Nat.leb List.length first_item].
    destruct first_file; cbn [get bind type_name]; eauto.
    destruct (truthy (dict_get d "base64_data" (VStr ""))) eqn:Hb;
      cbn [negb orb bind]; [| discriminate].
    destruct (dict_get d "base64_data" (VStr "")); cbn; try discriminate; eauto.
  - destruct d; cbn; [discriminate | eauto].
Qed.

(* ===================================================================== *)
(** ** Dispatch *)
(* ===================================================================== *)

Section Dispatch.
Variable env : environment.
Variable agent_meta : AgentMetadata.t.
Variables intent text : string.
Variable context : dict.
Variable custom_input : option dict.

Let request_id := uuid4 env.
Let network_error (exc : exn) : result AgentResponse.t :=
  Ok (error_response request_id agent_meta "network_error" (exn_text exc)).

(** The HTTP branch, in one equation. *)
Lemma call_agent_http (payload : value) :
  payload_of env agent_meta intent text context = Ok payload ->
  dispatches_http env agent_meta = true ->
  returned (call_agent env agent_meta intent text context custom_input)
  = try_except
      (resp <- exchange env agent_meta payload ;;
       handle_response env request_id agent_meta (endpoint_text agent_meta) resp)
      network_error.
Proof.
  unfold payload_of, call_agent, dispatches_http, exchange.
  destruct (build_metadata context) as [metadata | exc]; cbn [bind]; [| discriminate].
  intros [= <-] ->.
  destruct (open_client env (AgentMetadata.timeout_ms agent_meta)); reflexivity.
Qed.

Lemma posted_http (payload : value) :
  payload_of env agent_meta intent text context = Ok payload ->
  dispatches_http env agent_meta = true ->
  open_client env (AgentMetadata.timeout_ms agent_meta) = Ok tt ->
  posted (call_agent env agent_meta intent text context custom_input)
  = [ (endpoint_text agent_meta, payload) ].
Proof.
  unfold payload_of, call_agent, dispatches_http.
  destruct (build_metadata context) as [metadata | exc]; cbn [bind]; [| discriminate].
  intros [= <-] -> ->. reflexivity.
Qed.

(** No usable transport: one of the three configuration answers. *)
Lemma call_agent_not_dispatched :
  well_formed_context context = true ->
  dispatches_http env agent_meta = false ->
  returned (call_agent env agent_meta intent text context custom_input)
  = Ok (if String.eqb (AgentMetadata.type agent_meta) "http"
           && negb (httpx_installed env) then
          error_response request_id agent_meta "config_error"
                         "httpx not installed for HTTP agent calls"
        else if String.eqb (AgentMetadata.type agent_meta) "cli" then
          error_response request_id agent_meta "not_implemented"
                         "CLI agent execution is not implemented"
        else
          error_response request_id agent_meta "config_error"
                         "Agent endpoint/command not configured").
Proof.
  intros Hwf Hd. unfold call_agent.
  destruct (build_metadata_well_formed _ Hwf) as [metadata ->].
  unfold dispatches_http in Hd. rewrite Hd.
  destruct (String.eqb (AgentMetadata.type agent_meta) "http" && negb (httpx_installed env));
    [reflexivity |].
  destruct (String.eqb (AgentMetadata.type agent_meta) "cli"); reflexivity.
Qed.

Lemma payload_of_well_formed :
  well_formed_context context = true ->
  exists payload, payload_of env agent_meta intent text context = Ok payload.
Proof.
  intros Hwf. unfold payload_of.
  destruct (build_metadata_well_formed _ Hwf) as [metadata ->]. cbn. eauto.
Qed.

Lemma is_error_response (type message : string) :
  is_error (error_response request_id agent_meta type message) type.
Proof. repeat split. exists message. reflexivity. Qed.

(** Both agent-specific readers answer, whatever the body. *)
Lemma parse_progress_response_returns (resp : http_response) :
  exists r, parse_progress_response env request_id agent_meta resp = Ok r.
Proof.
  unfold parse_progress_response, read_progress_response.
  match goal with |- context [try_except ?b _] => destruct b end; cbn; eauto.
Qed.

Lemma parse_budget_response_returns (resp : http_response) :
  exists r, parse_budget_response env request_id agent_meta resp = Ok r.
Proof.
  unfold parse_budget_response, read_budget_response.
  match goal with |- context [try_except ?b _] => destruct b end; cbn; eauto.
Qed.

Lemma parse_progress_response_undecodable (resp : http_response) (exc : exn) :
  json resp = Raise exc ->
  parse_progress_response env request_id agent_meta resp
  = Ok (error_response request_id agent_meta "parse_error"
                       ("Failed to parse agent response: " ++ exn_text exc)).
Proof. intros H. unfold parse_progress_response, read_progress_response. rewrite H. reflexivity. Qed.

Lemma parse_budget_response_undecodable (resp : http_response) (exc : exn) :
  json resp = Raise exc ->
  parse_budget_response env request_id agent_meta resp
  = Ok (error_response request_id agent_meta "parse_error"
                       ("Failed to parse agent response: " ++ exn_text exc)).
Proof. intros H. unfold parse_budget_response, read_budget_response. rewrite H. reflexivity. Qed.

Lemma handle_response_status (resp : http_response) :
  status_code resp <> 200%Z ->
  handle_response env request_id agent_meta (endpoint_text agent_meta) resp
  = Ok (error_response request_id agent_meta "http_error"
          ("HTTP " ++ string_of_Z (status_code resp) ++ " calling "
           ++ endpoint_text agent_meta)).
Proof.
  intros H. unfold handle_response.
  destruct (Z.eqb_spec (status_code resp) 200); [contradiction | reflexivity].
Qed.

Lemma handle_response_200 (resp : http_response) :
  status_code resp = 200%Z ->
  handle_response env request_id agent_meta (endpoint_text agent_meta) resp
  = if String.eqb (AgentMetadata.name agent_meta) "progress_accountability_agent" then
      parse_progress_response env request_id agent_meta resp
    else if String.eqb (AgentMetadata.name agent_meta) "budget_tracker_agent" then
      parse_budget_response env request_id agent_meta resp
    else
      body <- json resp ;; AgentResponse_parse env body.
Proof. intros H. unfold handle_response. rewrite H. reflexivity. Qed.

Lemma call_agent_transport_failed (payload : value) (exc : exn) :
  payload_of env agent_meta intent text context = Ok payload ->
  dispatches_http env agent_meta = true ->
  exchange env agent_meta payload = Raise exc ->
  returned (call_agent env agent_meta intent text context custom_input)
  = network_error exc.
Proof.
  intros Hp Hd Hx.
  rewrite (@call_agent_http payload Hp Hd). rewrite Hx. reflexivity.
Qed.

Lemma call_agent_reply (payload : value) (reply : http_response) :
  payload_of env agent_meta intent text context = Ok payload ->
  dispatches_http env agent_meta = true ->
  exchange env agent_meta payload = Ok reply ->
  returned (call_agent env agent_meta intent text context custom_input)
  = try_except
      (handle_response env request_id agent_meta (endpoint_text agent_meta) reply)
      network_error.
Proof.
  intros Hp Hd Hx.
  rewrite (@call_agent_http payload Hp Hd). rewrite Hx. reflexivity.
Qed.

(** The error answers of the readers, by what the reply holds. *)
Lemma parse_progress_response_raised (resp : http_response) (exc : exn) :
  read_progress_response env request_id agent_meta resp = Raise exc ->
  parse_progress_response env request_id agent_meta resp
  = Ok (error_response request_id agent_meta "parse_error"
                       ("Failed to parse agent response: " ++ exn_text exc)).
Proof. intros H. unfold parse_progress_response. rewrite H. reflexivity. Qed.

Lemma parse_budget_response_raised (resp : http_response) (exc : exn) :
  read_budget_response env request_id agent_meta resp = Raise exc ->
  parse_budget_response env request_id agent_meta resp
  = Ok (error_response request_id agent_meta "parse_error"
                       ("Failed to parse agent response: " ++ exn_text exc)).
Proof. intros H. unfold parse_budget_response. rewrite H. reflexivity. Qed.

Lemma parse_progress_response_reported (resp : http_response) (d : dict) :
  json resp = Ok (VDict d) ->
  dict_get d "status" (VStr "") = VStr "error" ->
  parse_progress_response env request_id agent_meta resp
  = Ok (error_response request_id agent_meta "agent_error"
          (str (rt env)
               (dict_get d "message"
                         (VStr "Unknown error from progress_accountability_agent")))).
Proof.
  intros Hj Hs. unfold parse_progress_response, read_progress_response.
  rewrite Hj. cbn [bind with_dict]. rewrite Hs. reflexivity.
Qed.

Lemma parse_budget_response_reported (resp : http_response) (d : dict) :
  json resp = Ok (VDict d) ->
  truthy (dict_get d "success" (VBool false)) = false ->
  parse_budget_response env request_id agent_meta resp
  = Ok (error_response request_id agent_meta "agent_error"
          (str (rt env)
               (dict_get d "error"
                  (dict_get d "message"
                            (VStr "Unknown error from budget tracker agent"))))).
Proof.
  intros Hj Hs. unfold parse_budget_response, read_budget_response.
  rewrite Hj. cbn [bind with_dict]. rewrite Hs. reflexivity.
Qed.

Lemma call_agent_answers :
  well_formed_context context = true ->
  exists r, returned (call_agent env agent_meta intent text context custom_input) = Ok r.
Proof.
  intros Hwf.
  destruct (payload_of_well_formed Hwf) as [payload Hp].
  destruct (dispatches_http env agent_meta) eqn:Hd.
  - rewrite (@call_agent_http payload Hp Hd). unfold network_error.
    match goal with |- context [try_except ?b _] => destruct b end; cbn; eauto.
  - rewrite (call_agent_not_dispatched Hwf Hd). eauto.
Qed.

(** C1. On a well-formed input [call_agent] returns an [AgentResponse]
    and never raises.  An exception raised by the HTTP exchange (entering
    the client or the POST) comes back with [status = "error"], no output,
    [error.type = "network_error"] and the exception's text as
    [error.message].  Every failure path comes back with
    [status = "error"], no output and a populated [ErrorModel] of the
    type of that path: [config_error] and [not_implemented] for an
    unusable transport, [network_error] for a transport exception and
    for an undecodable or rejected body of an agent without adapter,
    [http_error] for a status other than 200, [parse_error] for an
    exception inside a reader, [agent_error] for a failure the agent
    reports. *)
Theorem call_agent_never_raises :
  well_formed_context context = true ->
  exists (resp : AgentResponse.t) (payload : value),
    payload_of env agent_meta intent text context = Ok payload
    /\ returned (call_agent env agent_meta intent text context custom_input) = Ok resp
    /\ (forall exc,
           dispatches_http env agent_meta = true ->
           exchange env agent_meta payload = Raise exc ->
           AgentResponse.status resp = "error"
           /\ AgentResponse.output resp = None
           /\ AgentResponse.error resp
              = Some (ErrorModel.Build "network_error" (exn_text exc)))
    /\ (forall type,
           failed_dispatch env agent_meta payload type -> is_error resp type).
Proof.
  intros Hwf.
  destruct (payload_of_well_formed Hwf) as [payload Hp].
  destruct (call_agent_answers Hwf) as [r Hret].
  exists r, payload.
  split; [exact Hp | split; [exact Hret | split]].
  - intros exc Hd Hx.
    rewrite (call_agent_transport_failed Hp Hd Hx) in Hret.
    injection Hret as <-. repeat split.
  - intros type Hf.
    destruct Hf as [Hty Hx | Hty | Hd Hc Hcli | exc Hd Hx | reply Hd Hx Hc
                    | reply exc Hd Hx Hc Hs Hj | reply body exc Hd Hx Hc Hs Hj Hr
                    | reply exc Hd Hx Hc Hn Hread | reply exc Hd Hx Hc Hn Hread
                    | reply d Hd Hx Hc Hn Hj Hst | reply d Hd Hx Hc Hn Hj Hst].
    + (* no client library *)
      assert (Hd : dispatches_http env agent_meta = false)
        by (unfold dispatches_http; rewrite Hx; apply andb_false_r).
      rewrite (call_agent_not_dispatched Hwf Hd), Hty, Hx in Hret.
      injection Hret as <-. repeat split; eexists; reflexivity.
    + (* cli *)
      assert (Hd : dispatches_http env agent_meta = false)
        by (unfold dispatches_http; rewrite Hty; reflexivity).
      rewrite (call_agent_not_dispatched Hwf Hd), Hty in Hret.
      injection Hret as <-. repeat split; eexists; reflexivity.
    + (* nothing configured *)
      apply String.eqb_neq in Hcli.
      rewrite (call_agent_not_dispatched Hwf Hd), Hc, Hcli in Hret.
      injection Hret as <-. repeat split; eexists; reflexivity.
    + (* the exchange raised *)
      rewrite (call_agent_transport_failed Hp Hd Hx) in Hret.
      injection Hret as <-. repeat split; eexists; reflexivity.
    + (* status other than 200 *)
      rewrite (call_agent_reply Hp Hd Hx) in Hret.
      rewrite handle_response_status in Hret by exact Hc.
      injection Hret as <-. repeat split; eexists; reflexivity.
    + (* the body is not JSON *)
      rewrite (call_agent_reply Hp Hd Hx) in Hret.
      rewrite handle_response_200 in Hret by exact Hc.
      unfold special_agent in Hs. apply orb_false_elim in Hs as [Hs1 Hs2].
      rewrite Hs1, Hs2, Hj in Hret.
      injection Hret as <-. repeat split; eexists; reflexivity.
    + (* the constructor rejects the body *)
      rewrite (call_agent_reply Hp Hd Hx) in Hret.
      rewrite handle_response_200 in Hret by exact Hc.
      unfold special_agent in Hs. apply orb_false_elim in Hs as [Hs1 Hs2].
      rewrite Hs1, Hs2, Hj in Hret. cbn [bind] in Hret. rewrite Hr in Hret.
      injection Hret as <-. repeat split; eexists; reflexivity.
    + (* the progress reader raised *)
      rewrite (call_agent_reply Hp Hd Hx) in Hret.
      rewrite handle_response_200 in Hret by exact Hc.
      rewrite Hn in Hret. cbn [String.eqb Ascii.eqb Bool.eqb] in Hret.
      rewrite (parse_progress_response_raised _ Hread) in Hret.
      injection Hret as <-. repeat split; eexists; reflexivity.
    + (* the budget reader raised *)
      rewrite (call_agent_reply Hp Hd Hx) in Hret.
      rewrite handle_response_200 in Hret by exact Hc.
      rewrite Hn in Hret. cbn [String.eqb Ascii.eqb Bool.eqb] in Hret.
      rewrite (parse_budget_response_raised _ Hread) in Hret.
      injection Hret as <-. repeat split; eexists; reflexivity.
    + (* the progress agent reports an error *)
      rewrite (call_agent_reply Hp Hd Hx) in Hret.
      rewrite handle_response_200 in Hret by exact Hc.
      rewrite Hn in Hret. cbn [String.eqb Ascii.eqb Bool.eqb] in Hret.
      rewrite (parse_progress_response_reported _ Hj Hst) in Hret.
      injection Hret as <-. repeat split; eexists; reflexivity.
    + (* the budget agent reports a failure *)
      rewrite (call_agent_reply Hp Hd Hx) in Hret.
      rewrite handle_response_200 in Hret by exact Hc.
      rewrite Hn in Hret. cbn [String.eqb Ascii.eqb Bool.eqb] in Hret.
      rewrite (parse_budget_response_reported _ Hj Hst) in Hret.
      injection Hret as <-. repeat split; eexists; reflexivity.
Qed.

End Dispatch.

(** An unreachable summarizer, called with two uploads in the context:
    the call returns, and what it returns is the [network_error]
    envelope. *)
Lemma call_agent_never_raises_witness :
  exists (resp : AgentResponse.t) (payload : value),
    payload_of samples.unreachable samples.summarizer_agent
               "document.summarize" "Summarize the attached report"
               samples.two_uploads = Ok payload
    /\ returned (call_agent samples.unreachable samples.summarizer_agent
                            "document.summarize" "Summarize the attached report"
                            samples.two_uploads None) = Ok resp
    /\ (forall exc,
           dispatches_http samples.unreachable samples.summarizer_agent = true ->
           exchange samples.unreachable samples.summarizer_agent payload = Raise exc ->
           AgentResponse.status resp = "error"
           /\ AgentResponse.output resp = None
           /\ AgentResponse.error resp
              = Some (ErrorModel.Build "network_error" (exn_text exc)))
    /\ (forall type,
           failed_dispatch samples.unreachable samples.summarizer_agent payload type ->
           is_error resp type).
Proof.
  apply call_agent_never_raises. reflexivity.
Defined.

(** Outside the well-formed contexts the metadata code raises before the
    [try]: an upload list that holds a bare file name. *)
Example call_agent_raises_on_ill_formed_uploads :
  returned (call_agent samples.unreachable samples.summarizer_agent
                       "document.summarize" "Summarize"
                       [ ("file_uploads", VList [ VStr "report.pdf" ]) ] None)
  = Raise (AttributeError "str" "get").
Proof. reflexivity. Qed.

(* ===================================================================== *)
(** ** The payload for the progress/accountability agent *)
(* ===================================================================== *)

Section ProgressPayload.
Variable env : environment.
Variable agent_meta : AgentMetadata.t.
Variables intent text : string.
Variable context : dict.
Variable custom_input : option dict.

Hypothesis to_progress_agent :
  AgentMetadata.name agent_meta = "progress_accountability_agent".

(** The task and the params of lines 189-203, as a pair. *)
Let task_and_params : string * dict :=
  let task := table_get PROGRESS_AGENT_INTENT_MAP intent "accountability" in
  if String.eqb task "freeform_message" then (task, [ ("message", VStr text) ])
  else if String.eqb task "goal" then ("freeform_message", [ ("message", VStr text) ])
  else if String.eqb intent "goal.update"
          && truthy (dict_get context "goal_id" VNone)
          && truthy (dict_get context "progress" VNone) then
    (task, [ ("goal_id", dict_get context "goal_id" VNone);
             ("progress", dict_get context "progress" VNone) ])
  else (task, []).

Lemma build_payload_progress (handshake : AgentRequest.t) :
  build_payload agent_meta intent text context handshake
  = VDict [ ("user_id", dict_get context "user_id" (VStr "anonymous"));
            ("task", VStr (fst task_and_params));
            ("params", VDict (snd task_and_params)) ].
Proof.
  unfold build_payload, task_and_params. rewrite to_progress_agent. cbn [String.eqb].
  change (String.eqb "progress_accountability_agent" "budget_tracker_agent") with false.
  change (String.eqb "progress_accountability_agent" "progress_accountability_agent")
    with true.
  cbv iota.
  destruct (String.eqb (table_get PROGRESS_AGENT_INTENT_MAP intent "accountability")
                       "freeform_message"); [reflexivity |].
  destruct (String.eqb (table_get PROGRESS_AGENT_INTENT_MAP intent "accountability")
                       "goal"); [reflexivity |].
  destruct (String.eqb intent "goal.update"
            && truthy (dict_get context "goal_id" VNone)
            && truthy (dict_get context "progress" VNone)); reflexivity.
Qed.

(** An intent with the table's value ["goal"] is [goal.update]. *)
Lemma table_goal_is_goal_update (k : string) :
  table_lookup PROGRESS_AGENT_INTENT_MAP k = Some "goal" -> k = "goal.update".
Proof.
  unfold PROGRESS_AGENT_INTENT_MAP. cbn [table_lookup].
  repeat match goal with
         | |- context [String.eqb ?a k] =>
             destruct (String.eqb_spec a k); [subst; try reflexivity; discriminate |]
         end.
  discriminate.
Qed.

Lemma task_of_mapped_intent (task : string) :
  table_lookup PROGRESS_AGENT_INTENT_MAP intent = Some task ->
  intent <> "goal.update" ->
  fst task_and_params = task.
Proof.
  intros Hl Hne. unfold task_and_params, table_get. rewrite Hl.
  destruct (String.eqb_spec task "freeform_message"); [reflexivity |].
  destruct (String.eqb_spec task "goal") as [-> |].
  - apply table_goal_is_goal_update in Hl. contradiction.
  - destruct (String.eqb_spec intent "goal.update"); [contradiction | reflexivity].
Qed.

Lemma task_of_unmapped_intent :
  table_lookup PROGRESS_AGENT_INTENT_MAP intent = None ->
  fst task_and_params = "accountability".
Proof.
  intros Hl. unfold task_and_params, table_get. rewrite Hl. cbn.
  destruct (String.eqb intent "goal.update"
            && truthy (dict_get context "goal_id" VNone)
            && truthy (dict_get context "progress" VNone)); reflexivity.
Qed.

Lemma task_of_goal_update :
  intent = "goal.update" ->
  task_and_params = ("freeform_message", [ ("message", VStr text) ]).
Proof. intros Hi. unfold task_and_params. rewrite Hi. reflexivity. Qed.

(** The direct progress update of lines 200-203 is never taken: its guard
    asks for [intent == "goal.update"] after the branch for the task
    ["goal"], which is that very intent's task. *)
Lemma direct_update_never_built :
  lookup (snd task_and_params) "goal_id" = None
  /\ lookup (snd task_and_params) "progress" = None.
Proof.
  unfold task_and_params, table_get.
  destruct (String.eqb_spec intent "goal.update") as [-> | Hne].
  - split; reflexivity.
  - cbn [andb].
    destruct (String.eqb _ "freeform_message"); [split; reflexivity |].
    destruct (String.eqb _ "goal"); split; reflexivity.
Qed.

(** C2 (amended). In an HTTP call to the progress/accountability agent
    the POSTed body's [task] is: the table's value for every intent of
    the table other than [goal.update]; ["accountability"] for an intent
    outside the table; and ["freeform_message"] for [goal.update] (whose
    table value ["goal"] is rewritten before sending) when the context
    does not hold both a truthy [goal_id] and a truthy [progress]. *)
Theorem progress_payload_task :
  well_formed_context context = true ->
  dispatches_http env agent_meta = true ->
  open_client env (AgentMetadata.timeout_ms agent_meta) = Ok tt ->
  exists payload,
    posted (call_agent env agent_meta intent text context custom_input)
    = [ (endpoint_text agent_meta, payload) ]
    /\ (forall task,
           table_lookup PROGRESS_AGENT_INTENT_MAP intent = Some task ->
           intent <> "goal.update" ->
           field payload "task" = Some (VStr task))
    /\ (table_lookup PROGRESS_AGENT_INTENT_MAP intent = None ->
        field payload "task" = Some (VStr "accountability"))
    /\ (intent = "goal.update" ->
        truthy (dict_get context "goal_id" VNone)
        && truthy (dict_get context "progress" VNone) = false ->
        field payload "task" = Some (VStr "freeform_message")).
Proof.
  intros Hwf Hd Hopen.
  destruct (payload_of_well_formed env agent_meta intent text context Hwf) as [payload Hp].
  exists payload. split; [apply posted_http; assumption |].
  unfold payload_of in Hp.
  destruct (build_metadata context) as [metadata |]; [| discriminate].
  cbn [bind] in Hp. injection Hp as <-. rewrite build_payload_progress.
  cbn [field lookup String.eqb]. 
  change (String.eqb "user_id" "task") with false.
  change (String.eqb "task" "task") with true. cbv iota.
  split; [| split].
  - intros task Hl Hne. rewrite (task_of_mapped_intent Hl Hne). reflexivity.
  - intros Hl. rewrite (task_of_unmapped_intent Hl). reflexivity.
  - intros Hi _. rewrite (task_of_goal_update Hi). reflexivity.
Qed.

End ProgressPayload.

Lemma progress_payload_task_witness :
  exists payload,
    posted (call_agent (samples.answering (samples.ok_reply (VDict [])))
                       samples.progress_agent "productivity.report"
                       "How did my week go?" samples.direct_update None)
    = [ (endpoint_text samples.progress_agent, payload) ]
    /\ (forall task,
           table_lookup PROGRESS_AGENT_INTENT_MAP "productivity.report" = Some task ->
           "productivity.report" <> "goal.update" ->
           field payload "task" = Some (VStr task))
    /\ (table_lookup PROGRESS_AGENT_INTENT_MAP "productivity.report" = None ->
        field payload "task" = Some (VStr "accountability"))
    /\ ("productivity.report" = "goal.update" ->
        truthy (dict_get samples.direct_update "goal_id" VNone)
        && truthy (dict_get samples.direct_update "progress" VNone) = false ->
        field payload "task" = Some (VStr "freeform_message")).
Proof.
  apply (@progress_payload_task (samples.answering (samples.ok_reply (VDict [])))
                               samples.progress_agent "productivity.report"
                               "How did my week go?" samples.direct_update None);
    reflexivity.
Defined.

(** C2 as first stated fails at [goal.update]: the table maps it to
    ["goal"], the body that is sent says ["freeform_message"]. *)
Lemma progress_payload_task_goal_update_counterexample :
  table_lookup PROGRESS_AGENT_INTENT_MAP "goal.update" = Some "goal"
  /\ exists payload,
       posted (call_agent (samples.answering (samples.ok_reply (VDict [])))
                          samples.progress_agent "goal.update"
                          "Read two chapters this week" [ ("user_id", VStr "u-17") ] None)
       = [ (endpoint_text samples.progress_agent, payload) ]
       /\ field payload "task" = Some (VStr "freeform_message")
       /\ field payload "task" <> Some (VStr "goal").
Proof.
  split; [reflexivity |].
  eexists. split; [reflexivity |]. split; [reflexivity | discriminate].
Qed.

(** C3 at its failing input: intent [goal.update] with a truthy [goal_id]
    and a truthy [progress] in the context.  The body that is sent holds
    the free text only; neither [goal_id] nor [progress] reaches
    [params]. *)
Theorem goal_update_params_lack_goal_id :
  posted (call_agent (samples.answering (samples.ok_reply (VDict [])))
                     samples.progress_agent "goal.update" "Half way there"
                     samples.direct_update None)
  = [ ("http://progress.local/task",
       VDict [ ("user_id", VStr "u-17");
               ("task", VStr "freeform_message");
               ("params", VDict [ ("message", VStr "Half way there") ]) ]) ].
Proof. reflexivity. Qed.

(* ===================================================================== *)
(** ** What reaches the wire *)
(* ===================================================================== *)

(** Agents without an adapter of their own receive the request itself. *)
Lemma generic_agent_posts_request
      (env : environment) (agent_meta : AgentMetadata.t) (intent text : string)
      (context : dict) (custom_input : option dict) (request : AgentRequest.t) :
  special_agent agent_meta = false ->
  request_of env agent_meta intent text context = Ok request ->
  dispatches_http env agent_meta = true ->
  open_client env (AgentMetadata.timeout_ms agent_meta) = Ok tt ->
  posted (call_agent env agent_meta intent text context custom_input)
  = [ (endpoint_text agent_meta, AgentRequest.dict request) ].
Proof.
  intros Hs Hr Hd Hopen.
  apply posted_http; try assumption.
  unfold request_of in Hr. unfold payload_of.
  destruct (build_metadata context) as [metadata |]; [| discriminate].
  cbn [bind] in *. injection Hr as <-.
  unfold build_payload. unfold special_agent in Hs.
  apply orb_false_elim in Hs as [-> ->]. reflexivity.
Qed.

(** The body for the progress/accountability agent never holds the
    direct-update parameters, whatever the intent and the context. *)
Lemma progress_params_never_direct
      (agent_meta : AgentMetadata.t) (intent text : string) (context : dict)
      (handshake : AgentRequest.t) :
  AgentMetadata.name agent_meta = "progress_accountability_agent" ->
  exists params,
    field (build_payload agent_meta intent text context handshake) "params"
    = Some (VDict params)
    /\ lookup params "goal_id" = None
    /\ lookup params "progress" = None.
Proof.
  intros Hn. rewrite build_payload_progress by exact Hn.
  eexists. split; [reflexivity |].
  apply direct_update_never_built.
Qed.

(* ===================================================================== *)
(** ** Upload forwarding *)
(* ===================================================================== *)

Lemma request_of_metadata (env : environment) (agent_meta : AgentMetadata.t)
      (intent text : string) (context metadata : dict) :
  build_metadata context = Ok metadata ->
  exists request,
    request_of env agent_meta intent text context = Ok request
    /\ metadata_of request = Some (VDict metadata).
Proof.
  intros H. unfold request_of. rewrite H. cbn [bind].
  eexists. split; reflexivity.
Qed.

Lemma build_metadata_first_upload (context first_file : dict) (others : list value) :
  lookup context "file_uploads" = Some (VList (VDict first_file :: others)) ->
  well_formed_upload (VDict first_file) = true ->
  build_metadata context = Ok (metadata_for first_file).
Proof.
  intros Hl Hwf.
  assert (Hfu : dict_get context "file_uploads" (VList [])
                = VList (VDict first_file :: others))
    by (unfold dict_get; rewrite Hl; reflexivity).
  unfold build_metadata. rewrite Hfu.
  cbn [truthy len bind List.length Nat.ltb Nat.leb first_item get].
  unfold metadata_for. unfold well_formed_upload in Hwf.
  destruct (truthy (dict_get first_file "base64_data" (VStr ""))) eqn:Hb;
    [| reflexivity].
  cbn [negb orb] in Hwf. cbn [bind].
  destruct (dict_get first_file "base64_data" (VStr "")); try discriminate; reflexivity.
Qed.

(** C9 (amended). When [context.file_uploads] is a list that starts with
    an upload record whose [base64_data] is truthy text, the request's
    [metadata] carries that payload as [file_base64], the record's
    [mime_type] (or ["application/octet-stream"]) and its [filename] (or
    ["uploaded_file"]); when the first record's [base64_data] is missing
    or empty nothing is attached.  Either way the metadata is the same for
    every context whose upload list starts with that record: no later
    upload reaches it. *)
Theorem metadata_carries_first_upload_only
        (env : environment) (agent_meta : AgentMetadata.t) (intent text : string)
        (context first_file : dict) (others : list value) :
  lookup context "file_uploads" = Some (VList (VDict first_file :: others)) ->
  well_formed_upload (VDict first_file) = true ->
  exists request metadata,
    request_of env agent_meta intent text context = Ok request
    /\ metadata_of request = Some (VDict metadata)
    /\ (truthy (dict_get first_file "base64_data" (VStr "")) = true ->
        lookup metadata "file_base64" = Some (dict_get first_file "base64_data" (VStr ""))
        /\ lookup metadata "mime_type"
           = Some (dict_get first_file "mime_type" (VStr "application/octet-stream"))
        /\ lookup metadata "filename"
           = Some (dict_get first_file "filename" (VStr "uploaded_file")))
    /\ (truthy (dict_get first_file "base64_data" (VStr "")) = false ->
        metadata = [ ("language", VStr "en"); ("extra", VDict []) ])
    /\ (forall (context' : dict) (others' : list value) request',
           lookup context' "file_uploads" = Some (VList (VDict first_file :: others')) ->
           request_of env agent_meta intent text context' = Ok request' ->
           metadata_of request' = Some (VDict metadata)).
Proof.
  intros Hl Hwf.
  pose proof (@build_metadata_first_upload context first_file others Hl Hwf) as Hm.
  destruct (@request_of_metadata env agent_meta intent text _ _ Hm) as (request & Hr & Hmeta).
  exists request, (metadata_for first_file).
  split; [exact Hr |]. split; [exact Hmeta |].
  unfold metadata_for.
  split; [| split].
  - intros ->. repeat split.
  - intros ->. reflexivity.
  - intros context' others' request' Hl' Hr'.
    pose proof (@build_metadata_first_upload context' first_file others' Hl' Hwf) as Hm'.
    destruct (@request_of_metadata env agent_meta intent text _ _ Hm') as (r2 & Hr2 & Hmeta2).
    rewrite Hr' in Hr2. injection Hr2 as <-. exact Hmeta2.
Qed.

Lemma metadata_carries_first_upload_only_witness :
  exists request metadata,
    request_of samples.unreachable samples.summarizer_agent "document.summarize"
               "Summarize the attached report" samples.two_uploads = Ok request
    /\ metadata_of request = Some (VDict metadata)
    /\ lookup metadata "file_base64" = Some (VStr "JVBERi0xLjQ=")
    /\ lookup metadata "mime_type" = Some (VStr "application/pdf")
    /\ lookup metadata "filename" = Some (VStr "report.pdf").
Proof.
  destruct (@metadata_carries_first_upload_only
              samples.unreachable samples.summarizer_agent "document.summarize"
              "Summarize the attached report" samples.two_uploads
              [ ("base64_data", VStr "JVBERi0xLjQ=");
                ("mime_type", VStr "application/pdf");
                ("filename", VStr "report.pdf") ]
              [ samples.notes_txt ] eq_refl eq_refl)
    as (request & metadata & Hr & Hm & Hfile & _).
  exists request, metadata.
  destruct (Hfile eq_refl) as (H1 & H2 & H3).
  repeat split; assumption.
Defined.

(** C9 as first stated fails when the first upload's payload is empty:
    the list is not empty, yet the MIME type and the file name of its
    first record are not in the metadata. *)
Lemma metadata_empty_payload_counterexample :
  exists request metadata,
    request_of samples.unreachable samples.summarizer_agent "document.summarize"
               "Summarize the attached report"
               [ ("file_uploads", VList [ samples.empty_upload; samples.report_pdf ]) ]
    = Ok request
    /\ metadata_of request = Some (VDict metadata)
    /\ lookup metadata "file_base64" = None
    /\ lookup metadata "mime_type" = None
    /\ lookup metadata "filename" = None.
Proof.
  do 2 eexists. repeat split.
Qed.

(* ===================================================================== *)
(** ** Transport classification *)
(* ===================================================================== *)

Example string_of_Z_503 : string_of_Z 503 = "503".
Proof. reflexivity. Qed.

Section Classification.
Variable env : environment.
Variable agent_meta : AgentMetadata.t.
Variables intent text : string.
Variable context : dict.
Variable custom_input : option dict.

Let answer := returned (call_agent env agent_meta intent text context custom_input).

(** C5. On a well-formed input: a reply whose status code is not 200
    comes back with [error.type = "http_error"] and the message "HTTP
    <code> calling <endpoint>"; the transport type [cli] with
    [not_implemented]; the type [http] without the HTTP client library
    with [config_error]; and every other type, as well as [http] with no
    endpoint configured, with [config_error] and the message "Agent
    endpoint/command not configured".  Each of them is a returned
    response with [status = "error"] and no output. *)
Theorem transport_classification :
  well_formed_context context = true ->
  (forall payload reply,
      dispatches_http env agent_meta = true ->
      payload_of env agent_meta intent text context = Ok payload ->
      exchange env agent_meta payload = Ok reply ->
      status_code reply <> 200%Z ->
      error_answer answer "http_error"
                   ("HTTP " ++ string_of_Z (status_code reply) ++ " calling "
                    ++ endpoint_text agent_meta))
  /\ (AgentMetadata.type agent_meta = "cli" ->
      error_answer answer "not_implemented" "CLI agent execution is not implemented")
  /\ (AgentMetadata.type agent_meta = "http" ->
      httpx_installed env = false ->
      error_answer answer "config_error" "httpx not installed for HTTP agent calls")
  /\ (AgentMetadata.type agent_meta <> "http" ->
      AgentMetadata.type agent_meta <> "cli" ->
      error_answer answer "config_error" "Agent endpoint/command not configured")
  /\ (AgentMetadata.type agent_meta = "http" ->
      endpoint_truthy agent_meta = false ->
      httpx_installed env = true ->
      error_answer answer "config_error" "Agent endpoint/command not configured").
Proof.
  intros Hwf. unfold answer.
  split; [| split; [| split; [| split]]].
  - intros payload reply Hd Hp Hx Hc.
    rewrite (@call_agent_http env agent_meta intent text context custom_input payload Hp Hd).
    rewrite Hx. cbn [bind].
    rewrite handle_response_status by exact Hc. (eexists; split; [reflexivity |]; repeat split).
  - intros Hty.
    rewrite call_agent_not_dispatched;
      [| exact Hwf | unfold dispatches_http; rewrite Hty; reflexivity].
    rewrite Hty. (eexists; split; [reflexivity |]; repeat split).
  - intros Hty Hx.
    rewrite call_agent_not_dispatched;
      [| exact Hwf | unfold dispatches_http; rewrite Hx; apply andb_false_r].
    rewrite Hty, Hx. (eexists; split; [reflexivity |]; repeat split).
  - intros Hh Hc.
    apply String.eqb_neq in Hh. apply String.eqb_neq in Hc.
    rewrite call_agent_not_dispatched;
      [| exact Hwf | unfold dispatches_http; rewrite Hh; reflexivity].
    rewrite Hh, Hc. (eexists; split; [reflexivity |]; repeat split).
  - intros Hty He Hx.
    rewrite call_agent_not_dispatched;
      [| exact Hwf | unfold dispatches_http; rewrite He, andb_false_r; reflexivity].
    rewrite Hty, Hx. (eexists; split; [reflexivity |]; repeat split).
Qed.

End Classification.

Lemma transport_classification_witness :
  error_answer
    (returned (call_agent (samples.answering (Ok samples.unavailable))
                          samples.summarizer_agent "document.summarize" "Summarize"
                          samples.two_uploads None))
    "http_error" "HTTP 503 calling http://summarizer.local/handle"
  /\ error_answer
       (returned (call_agent samples.unreachable samples.cli_agent "tool.run" "ls"
                             samples.two_uploads None))
       "not_implemented" "CLI agent execution is not implemented"
  /\ error_answer
       (returned (call_agent samples.without_httpx samples.summarizer_agent
                             "document.summarize" "Summarize" samples.two_uploads None))
       "config_error" "httpx not installed for HTTP agent calls"
  /\ error_answer
       (returned (call_agent samples.unreachable samples.grpc_agent "tool.run" "ls"
                             samples.two_uploads None))
       "config_error" "Agent endpoint/command not configured"
  /\ error_answer
       (returned (call_agent samples.unreachable samples.unconfigured_agent "draft" "hello"
                             samples.two_uploads None))
       "config_error" "Agent endpoint/command not configured".
Proof.
  split; [| split; [| split; [| split]]].
  - refine (proj1 (@transport_classification
                     (samples.answering (Ok samples.unavailable))
                     samples.summarizer_agent "document.summarize" "Summarize"
                     samples.two_uploads None eq_refl)
                  _ samples.unavailable eq_refl eq_refl eq_refl _).
    discriminate.
  - apply (proj1 (proj2 (@transport_classification
             samples.unreachable samples.cli_agent "tool.run" "ls"
             samples.two_uploads None eq_refl))).
    reflexivity.
  - apply (proj1 (proj2 (proj2 (@transport_classification
             samples.without_httpx samples.summarizer_agent
             "document.summarize" "Summarize" samples.two_uploads None eq_refl))));
      reflexivity.
  - apply (proj1 (proj2 (proj2 (proj2 (@transport_classification
             samples.unreachable samples.grpc_agent "tool.run" "ls"
             samples.two_uploads None eq_refl)))));
      cbn; discriminate.
  - apply (proj2 (proj2 (proj2 (proj2 (@transport_classification
             samples.unreachable samples.unconfigured_agent
             "draft" "hello" samples.two_uploads None eq_refl)))));
      reflexivity.
Defined.

(* ===================================================================== *)
(** ** The envelope invariant *)
(* ===================================================================== *)

Section Envelope.
Variable env : environment.
Variable request_id : string.
Variable agent_meta : AgentMetadata.t.

Lemma envelope_error_response (type message : string) :
  envelope (error_response request_id agent_meta type message) = true.
Proof. reflexivity. Qed.

Lemma envelope_success_response (result_text : value) (details : option string) :
  envelope (success_response request_id agent_meta result_text details) = true.
Proof. reflexivity. Qed.

Lemma parse_progress_response_envelope (resp : http_response) (r : AgentResponse.t) :
  parse_progress_response env request_id agent_meta resp = Ok r ->
  envelope r = true.
Proof.
  unfold parse_progress_response, read_progress_response, try_except, with_dict, bind.
  intros H. branches H.
Qed.

Lemma parse_budget_response_envelope (resp : http_response) (r : AgentResponse.t) :
  parse_budget_response env request_id agent_meta resp = Ok r ->
  envelope r = true.
Proof.
  unfold parse_budget_response, read_budget_response, try_except, with_dict, bind.
  intros H. branches H.
Qed.

Lemma handle_response_envelope (endpoint : string) (resp : http_response)
      (r : AgentResponse.t) :
  handle_response env request_id agent_meta endpoint resp = Ok r ->
  envelope r = true
  \/ (special_agent agent_meta = false
      /\ status_code resp = 200%Z
      /\ exists body, json resp = Ok body /\ AgentResponse_parse env body = Ok r).
Proof.
  unfold handle_response, special_agent. intros H.
  destruct (Z.eqb_spec (status_code resp) 200) as [Hc | Hc]; cbn [negb] in H.
  - destruct (String.eqb (AgentMetadata.name agent_meta) "progress_accountability_agent").
    { left. eapply parse_progress_response_envelope; eassumption. }
    destruct (String.eqb (AgentMetadata.name agent_meta) "budget_tracker_agent").
    { left. eapply parse_budget_response_envelope; eassumption. }
    right. destruct (json resp) as [body |]; [| discriminate].
    cbn [bind] in H. repeat split; eauto.
  - left. injection H as <-. reflexivity.
Qed.

End Envelope.

(** Every [AgentResponse] that [call_agent] builds itself satisfies the
    envelope invariant: all error answers and everything the readers for
    the budget-tracking and the progress/accountability agent produce.
    For any other agent a 200 body is decoded directly, and what comes
    back is whatever the [AgentResponse] constructor made of that body. *)
Lemma call_agent_envelope_or_decoded
        (env : environment) (agent_meta : AgentMetadata.t) (intent text : string)
        (context : dict) (custom_input : option dict) (r : AgentResponse.t) :
  returned (call_agent env agent_meta intent text context custom_input) = Ok r ->
  envelope r = true
  \/ (special_agent agent_meta = false
      /\ exists payload reply body,
           payload_of env agent_meta intent text context = Ok payload
           /\ exchange env agent_meta payload = Ok reply
           /\ status_code reply = 200%Z
           /\ json reply = Ok body
           /\ AgentResponse_parse env body = Ok r).
Proof.
  intros H.
  destruct (well_formed_context context) eqn:Hwf.
  2: { destruct (build_metadata_ill_formed _ Hwf) as [exc He].
       unfold call_agent in H. rewrite He in H. discriminate. }
  destruct (payload_of_well_formed env agent_meta intent text context Hwf) as [payload Hp].
  destruct (dispatches_http env agent_meta) eqn:Hd.
  - rewrite (@call_agent_http env agent_meta intent text context custom_input payload Hp Hd)
      in H.
    destruct (exchange env agent_meta payload) as [reply | exc] eqn:Hx; cbn [bind] in H.
    + destruct (handle_response env (uuid4 env) agent_meta (endpoint_text agent_meta) reply)
        as [r' | exc] eqn:Hh; cbn [try_except] in H.
      * injection H as <-.
        destruct (handle_response_envelope _ _ _ _ _ Hh)
          as [He | (Hs & Hc & body & Hj & Hparse)]; [left; exact He |].
        right. split; [exact Hs |]. exists payload, reply, body. auto.
      * injection H as <-. left. reflexivity.
    + cbn [try_except] in H. injection H as <-. left. reflexivity.
  - rewrite (@call_agent_not_dispatched env agent_meta intent text context custom_input Hwf Hd) in H.
    injection H as <-. left.
    destruct (String.eqb (AgentMetadata.type agent_meta) "http"
              && negb (httpx_installed env)); [reflexivity |].
    destruct (String.eqb (AgentMetadata.type agent_meta) "cli"); reflexivity.
Qed.

(** The constructor accepts only envelopes that satisfy the invariant. *)
Lemma AgentResponse_of_envelope (body : value) (r : AgentResponse.t) :
  AgentResponse_of body = Ok r -> envelope r = true.
Proof.
  unfold AgentResponse_of. destruct body as [| | | | | | d]; try discriminate.
  destruct (required_str d "request_id") as [rid |]; [| discriminate].
  destruct (required_str d "agent_name") as [nm |]; [| discriminate].
  destruct (required_str d "status") as [st |]; [| discriminate].
  cbn [bind].
  destruct (String.eqb st "success" || String.eqb st "error"); [| discriminate].
  destruct (optional_field d "output" OutputModel_of) as [[out |] |];
    [| | discriminate]; cbn [bind];
    (destruct (optional_field d "error" ErrorModel_of) as [[err |] |];
     [| | discriminate]); cbn [bind]; try discriminate.
  - destruct (String.eqb_spec st "success") as [-> |]; [| discriminate].
    intros [= <-]. reflexivity.
  - destruct (String.eqb_spec st "error") as [-> |]; [| discriminate].
    intros [= <-]. reflexivity.
Qed.

(** C4. Every [AgentResponse] returned by [call_agent] satisfies the
    envelope invariant: exactly one of [output] and [error] is populated,
    and [error] is present exactly when [status] is "error".  On the
    paths where [call_agent] assembles the response this follows from the
    code; on the path for the other agents, where the 200 body is decoded
    directly, it is the constructor of the envelope that keeps it. *)
Theorem call_agent_envelope
        (env : environment) (agent_meta : AgentMetadata.t) (intent text : string)
        (context : dict) (custom_input : option dict) (r : AgentResponse.t) :
  (forall body, AgentResponse_parse env body = AgentResponse_of body) ->
  returned (call_agent env agent_meta intent text context custom_input) = Ok r ->
  envelope r = true.
Proof.
  intros Hparse H.
  destruct (call_agent_envelope_or_decoded _ _ _ _ _ _ H)
    as [He | (_ & payload & reply & body & _ & _ & _ & _ & Hr)]; [exact He |].
  rewrite Hparse in Hr. exact (AgentResponse_of_envelope _ Hr).
Qed.

Lemma call_agent_envelope_witness :
  let r :=
    AgentResponse.Build
      "r-1" "document_summarizer_agent" "success"
      (Some (OutputModel.Build (VStr "The report covers the first quarter.") None))
      None in
  returned (call_agent (samples.answering (samples.ok_reply samples.summary_reply))
                       samples.summarizer_agent "document.summarize" "Summarize"
                       samples.two_uploads None)
  = Ok r
  /\ envelope r = true.
Proof.
  intros r. split; [reflexivity |].
  apply (@call_agent_envelope
           (samples.answering (samples.ok_reply samples.summary_reply))
           samples.summarizer_agent "document.summarize" "Summarize" samples.two_uploads
           None r).
  - intros body. reflexivity.
  - reflexivity.
Defined.

(** A body in the canonical shape that reports success and carries
    neither [output] nor [error] is not handed back: the constructor
    rejects it and the call answers [network_error]. *)
Example bare_success_is_rejected :
  exists r,
    returned (call_agent (samples.answering (samples.ok_reply samples.bare_success))
                         samples.summarizer_agent "document.summarize" "Summarize" [] None)
    = Ok r
    /\ is_error r "network_error".
Proof.
  eexists. split; [reflexivity |].
  split; [reflexivity |]. split; [reflexivity |]. eexists. reflexivity.
Qed.

(* ===================================================================== *)
(** ** Replies of the budget-tracking agent *)
(* ===================================================================== *)

Lemma append_nonempty (s t : string) : s <> "" -> s ++ t <> "".
Proof. destruct s; [contradiction | discriminate]. Qed.

Lemma join_nonempty (sep p : string) (ps : list string) :
  p <> "" -> join sep (p :: ps) <> "".
Proof.
  intros Hp. unfold join. cbn [String.concat].
  destruct ps; [exact Hp | apply append_nonempty; exact Hp].
Qed.

Lemma repr_dict_nonempty (r : runtime) (d : dict) : str r (VDict d) <> "".
Proof. cbn. discriminate. Qed.

Lemma joinable_join_value (sep : string) (v : value) :
  joinable v = true -> exists s, join_value sep v = Ok s.
Proof.
  destruct v as [| | | | s | l | d]; cbn [joinable]; try discriminate; cbn; eauto.
  intros Hl.
  assert (Hall : forall i, exists parts, all_strings i l = Ok parts).
  { induction l as [| x l IH]; intros i; cbn [all_strings]; [eauto |].
    cbn [forallb] in Hl. apply andb_prop in Hl as [Hx Hl].
    destruct x; try discriminate.
    destruct (IH Hl (S i)) as [parts ->]. cbn. eauto. }
  destruct (Hall 0) as [parts ->]. cbn. eauto.
Qed.

Lemma not_joinable_join_value (sep : string) (v : value) :
  joinable v = false -> exists exc, join_value sep v = Raise exc.
Proof.
  destruct v as [| | | | s | l | d]; cbn [joinable]; try discriminate; cbn; eauto.
  intros Hl.
  assert (Hall : forall i, exists exc, all_strings i l = Raise exc).
  { induction l as [| x l IH]; intros i; cbn [forallb] in Hl; [discriminate |].
    cbn [all_strings].
    destruct x; cbn [andb] in Hl; eauto.
    destruct (IH Hl (S i)) as [exc ->]. cbn. eauto. }
  destruct (Hall 0) as [exc ->]. cbn. eauto.
Qed.

Lemma format_numeric_converts (code : string) (fmt : value -> string) (v : value) :
  converts_to_float v = true -> format_numeric code fmt v = Ok (fmt v).
Proof.
  destruct v; cbv beta iota delta [converts_to_float format_numeric]; intros H;
    try discriminate H; try reflexivity.
  rewrite H. reflexivity.
Qed.

Lemma format_numeric_rejects (code : string) (fmt : value -> string) (v : value) :
  converts_to_float v = false -> exists exc, format_numeric code fmt v = Raise exc.
Proof.
  destruct v; cbv beta iota delta [converts_to_float format_numeric]; intros H;
    try discriminate H; eauto.
  rewrite H. eauto.
Qed.

(** The largest integer that still formats, and the first that does not. *)
Example converts_to_float_boundary :
  converts_to_float (VInt (float_overflow - 1)) = true
  /\ converts_to_float (VInt float_overflow) = false
  /\ converts_to_float (VInt (- float_overflow)) = false.
Proof. vm_compute. repeat split. Qed.

Section BudgetParts.
Variable env : environment.
Variable d : dict.

Lemma contains_lookup (k : string) :
  contains d k = match lookup d k with Some _ => true | None => false end.
Proof. reflexivity. Qed.

(** On typed fields the sequence of appends is the list of expected
    parts. *)
Lemma budget_parts_typed :
  budget_fields_typed d = true ->
  budget_parts env d = Ok (expected_budget_parts (rt env) d).
Proof.
  unfold budget_fields_typed, budget_parts, expected_budget_parts, part_for,
    contains, dict_get, extend, joined_or_empty.
  intros H. apply andb_prop in H as [Hrem Hrec].
  destruct (lookup d "remaining") as [rem |];
    [rewrite (format_numeric_converts "f" (format_2f (rt env)) rem Hrem) |];
    cbn [bind app];
    destruct (lookup d "project_name"), (lookup d "overshoot_risk");
    cbn [app];
    (destruct (lookup d "recommendations") as [rec |]; cbn [andb]; [| reflexivity]);
    (destruct (truthy rec); [| reflexivity]);
    cbn [negb orb] in Hrec;
    (destruct (joinable_join_value ", " rec Hrec) as [s ->]); reflexivity.
Qed.

(** On fields of another type one of the formatting steps raises. *)
Lemma budget_parts_untyped :
  budget_fields_typed d = false ->
  exists exc, budget_parts env d = Raise exc.
Proof.
  unfold budget_fields_typed, budget_parts, contains, dict_get.
  intros H.
  destruct (lookup d "remaining") as [rem |].
  - destruct (converts_to_float rem) eqn:Hrem.
    + rewrite (format_numeric_converts "f" (format_2f (rt env)) rem Hrem).
      cbn [andb bind] in *.
      destruct (lookup d "recommendations") as [rec |]; [| discriminate].
      apply orb_false_elim in H as [Ht Hj].
      apply negb_false_iff in Ht. rewrite Ht. cbn [andb].
      destruct (not_joinable_join_value ", " rec Hj) as [exc ->]. cbn [bind]. eauto.
    + destruct (format_numeric_rejects "f" (format_2f (rt env)) rem Hrem) as [exc ->].
      cbn [bind]. eauto.
  - cbn [andb bind] in *.
    destruct (lookup d "recommendations") as [rec |]; [| discriminate].
    apply orb_false_elim in H as [Ht Hj].
    apply negb_false_iff in Ht. rewrite Ht. cbn [andb].
    destruct (not_joinable_join_value ", " rec Hj) as [exc ->]. cbn [bind]. eauto.
Qed.

Lemma expected_budget_parts_nonempty (p : string) :
  In p (expected_budget_parts (rt env) d) -> p <> "".
Proof.
  unfold expected_budget_parts, part_for. cbn [List.concat]. intros Hin.
  rewrite app_nil_r in Hin.
  apply in_app_or in Hin as [Hin | Hin];
    [| apply in_app_or in Hin as [Hin | Hin];
       [| apply in_app_or in Hin as [Hin | Hin]]].
  - destruct (lookup d "remaining"); [| contradiction].
    destruct Hin as [<- | []]. discriminate.
  - destruct (lookup d "project_name"); [| contradiction].
    destruct Hin as [<- | []]. discriminate.
  - destruct (lookup d "overshoot_risk"); [| contradiction].
    destruct Hin as [<- | []]. discriminate.
  - destruct (lookup d "recommendations") as [v |]; [| contradiction].
    destruct (truthy v); [| contradiction].
    destruct Hin as [<- | []]. discriminate.
Qed.

End BudgetParts.

Section BudgetReply.
Variable env : environment.
Variable agent_meta : AgentMetadata.t.
Variables intent text : string.
Variable context : dict.
Variable custom_input : option dict.
Variable payload : value.
Variable reply : http_response.

Hypothesis to_budget_agent : AgentMetadata.name agent_meta = "budget_tracker_agent".
Hypothesis dispatched : dispatches_http env agent_meta = true.
Hypothesis built : payload_of env agent_meta intent text context = Ok payload.
Hypothesis answered : exchange env agent_meta payload = Ok reply.
Hypothesis status_200 : status_code reply = 200%Z.

Let answer := returned (call_agent env agent_meta intent text context custom_input).

(** On a 200 reply the budget reader decides alone. *)
Lemma call_agent_budget :
  answer = parse_budget_response env (uuid4 env) agent_meta reply.
Proof.
  unfold answer.
  rewrite (@call_agent_http env agent_meta intent text context custom_input payload
                            built dispatched).
  rewrite answered. cbn [bind]. unfold handle_response.
  rewrite status_200, to_budget_agent. cbn [Z.eqb Pos.eqb negb].
  change (String.eqb "budget_tracker_agent" "progress_accountability_agent") with false.
  change (String.eqb "budget_tracker_agent" "budget_tracker_agent") with true.
  cbv iota.
  destruct (parse_budget_response_returns env agent_meta reply) as [r ->].
  reflexivity.
Qed.

(** C6 (amended). For the budget-tracking agent on an HTTP 200 reply:
    a body whose [success] is false (or missing) comes back as
    [status = "error"] with [error.type = "agent_error"]; a body whose
    [success] is true and that has no [response] text comes back as
    [status = "success"] with a non-empty result text, joined with ". "
    from one part per present field among [remaining], [project_name],
    [overshoot_risk], [recommendations] (the whole body rendered when
    none is present), provided [remaining] is a number that converts to
    [float] and [recommendations] can be joined, and otherwise as
    [status = "error"] with [error.type = "parse_error"]; and a body that
    fails to parse as JSON comes back as [parse_error] with the
    exception's text. *)
Theorem budget_reply_normalised :
  (forall d,
      json reply = Ok (VDict d) ->
      truthy (dict_get d "success" (VBool false)) = false ->
      exists message, error_answer answer "agent_error" message)
  /\ (forall d,
         json reply = Ok (VDict d) ->
         lookup d "success" = Some (VBool true) ->
         truthy (dict_get d "response" VNone) = false ->
         budget_fields_typed d = true ->
         exists result_text details,
           success_answer answer (VStr result_text) details
           /\ result_text <> ""
           /\ result_text
              = match expected_budget_parts (rt env) d with
                | [] => str (rt env) (VDict d)
                | parts => join ". " parts
                end)
  /\ (forall d,
         json reply = Ok (VDict d) ->
         lookup d "success" = Some (VBool true) ->
         truthy (dict_get d "response" VNone) = false ->
         budget_fields_typed d = false ->
         exists message, error_answer answer "parse_error" message)
  /\ (forall exc,
         json reply = Raise exc ->
         error_answer answer "parse_error"
                      ("Failed to parse agent response: " ++ exn_text exc)).
Proof.
  rewrite call_agent_budget.
  split; [| split; [| split]].
  - intros d Hj Hs. rewrite (@parse_budget_response_reported env agent_meta reply d Hj Hs).
    eexists. eexists. repeat split.
  - intros d Hj Hs Hr Hty. unfold parse_budget_response, read_budget_response.
    rewrite Hj. cbn [bind with_dict].
    unfold dict_get at 1. rewrite Hs. cbn [truthy].
    rewrite Hr. cbn [negb]. rewrite (budget_parts_typed env d Hty).
    cbn [bind try_except].
    pose proof (expected_budget_parts_nonempty env d) as Hne.
    destruct (expected_budget_parts (rt env) d) as [| p ps];
      do 2 eexists;
      (split; [eexists; split; [reflexivity |]; repeat split |]);
      (split; [| reflexivity]).
    + apply repr_dict_nonempty.
    + apply join_nonempty. apply Hne. left. reflexivity.
  - intros d Hj Hs Hr Hty. unfold parse_budget_response, read_budget_response.
    rewrite Hj. cbn [bind with_dict].
    unfold dict_get at 1. rewrite Hs. cbn [truthy].
    rewrite Hr. cbn [negb].
    destruct (budget_parts_untyped env d Hty) as [exc ->].
    cbn [bind try_except]. eexists. eexists. repeat split.
  - intros exc Hj. rewrite (@parse_budget_response_undecodable env agent_meta reply exc Hj).
    eexists. repeat split.
Qed.

End BudgetReply.

Lemma budget_reply_normalised_witness :
  exists result_text details,
    success_answer
      (returned (call_agent
                   (samples.answering (samples.ok_reply (VDict samples.budget_fields)))
                   samples.budget_agent "budget.check" "How much is left?"
                   samples.direct_update None))
      (VStr result_text) details
    /\ result_text <> ""
    /\ result_text
       = "Remaining: $<int:.2f>. Project: Apollo. Recommendations: Cut travel, Freeze hiring".
Proof.
  destruct (proj1 (proj2 (@budget_reply_normalised
                            (samples.answering (samples.ok_reply (VDict samples.budget_fields)))
                            samples.budget_agent "budget.check" "How much is left?"
                            samples.direct_update None
                            (VDict [ ("query", VStr "How much is left?") ])
                            (HttpResponse 200 (Ok (VDict samples.budget_fields)))
                            eq_refl eq_refl eq_refl eq_refl eq_refl))
                  samples.budget_fields eq_refl eq_refl eq_refl eq_refl)
    as (result_text & details & Ha & Hne & Ht).
  exists result_text, details. repeat split; assumption.
Defined.

(** An integer [remaining] beyond the range of a [float] does not format
    either: the answer is a [parse_error]. *)
Example budget_remaining_too_large_is_parse_error :
  exists r,
    returned (call_agent
                (samples.answering
                   (samples.ok_reply (VDict samples.budget_remaining_too_large)))
                samples.budget_agent "budget.check" "How much is left?"
                samples.direct_update None)
    = Ok r
    /\ is_error r "parse_error"
    /\ AgentResponse.error r
       = Some (ErrorModel.Build
                 "parse_error"
                 "Failed to parse agent response: int too large to convert to float").
Proof.
  eexists. split; [vm_compute; reflexivity |].
  split; [| reflexivity].
  split; [reflexivity |]. split; [reflexivity |]. eexists. reflexivity.
Qed.

(** C6 as first stated fails when a present field has another type than
    the formatting expects: [success] is true, there is no [response],
    [remaining] is present as text, and the answer is a [parse_error]. *)
Lemma budget_remaining_as_text_counterexample :
  lookup samples.budget_remaining_as_text "success" = Some (VBool true)
  /\ lookup samples.budget_remaining_as_text "response" = None
  /\ exists r,
       returned (call_agent
                   (samples.answering
                      (samples.ok_reply (VDict samples.budget_remaining_as_text)))
                   samples.budget_agent "budget.check" "How much is left?"
                   samples.direct_update None)
       = Ok r
       /\ AgentResponse.status r = "error"
       /\ is_error r "parse_error".
Proof.
  split; [reflexivity |]. split; [reflexivity |].
  eexists. split; [reflexivity |]. split; [reflexivity |].
  split; [reflexivity |]. split; [reflexivity |]. eexists. reflexivity.
Qed.

(* ===================================================================== *)
(** ** The combiner's fallback *)
(* ===================================================================== *)

Section Combiner.
Variable env : openrouter.environment.

Lemma combine_unconfigured (req : CombinedAnswerRequest.t) :
  openrouter.unconfigured env = true ->
  combine.combine_tool_outputs env req = combine._fallback (openrouter.rt env) req.
Proof. intros H. unfold combine.combine_tool_outputs. rewrite H. reflexivity. Qed.

(** The loop appends one rendered line per entry to what it has. *)
Lemma stitch_entries (tool_outputs : list dict) :
  forall lines,
    fold_left (combine.stitch_entry (openrouter.rt env)) tool_outputs lines
    = (lines ++ map (rendered_entry (openrouter.rt env)) tool_outputs)%list.
Proof.
  induction tool_outputs as [| entry rest IH]; intros lines; cbn [fold_left map].
  - symmetry. apply app_nil_r.
  - rewrite IH. unfold combine.stitch_entry, rendered_entry, extend.
    destruct (eq_str (dict_get entry "status" VNone) "success");
      rewrite <- app_assoc; reflexivity.
Qed.

(** C7. With no client library or no API key, the combined answer is the
    tool outputs in input order, each rendered "<agent>: <result>" when
    its status is "success" and "<agent>: failed (<error>)" otherwise,
    joined by " | "; and with no tool outputs it is the fixed sentence
    "No tool outputs available." *)
Theorem combine_fallback_rendering (req : CombinedAnswerRequest.t) :
  openrouter.unconfigured env = true ->
  combine.combine_tool_outputs env req
  = CombinedAnswerResponse.Build
      (rendered_outputs (openrouter.rt env) (CombinedAnswerRequest.tool_outputs req))
  /\ (CombinedAnswerRequest.tool_outputs req = [] ->
      CombinedAnswerResponse.combined_answer (combine.combine_tool_outputs env req)
      = "No tool outputs available.").
Proof.
  intros H. rewrite (combine_unconfigured req H).
  unfold combine._fallback, rendered_outputs. rewrite stitch_entries. cbn [app].
  split.
  - destruct (CombinedAnswerRequest.tool_outputs req); reflexivity.
  - intros ->. reflexivity.
Qed.

(** C10. With no client library or no API key, two requests with the
    same tool outputs get the same combined answer, whatever their
    queries and history summaries. *)
Theorem combine_fallback_ignores_query (req1 req2 : CombinedAnswerRequest.t) :
  openrouter.unconfigured env = true ->
  CombinedAnswerRequest.tool_outputs req1 = CombinedAnswerRequest.tool_outputs req2 ->
  combine.combine_tool_outputs env req1 = combine.combine_tool_outputs env req2.
Proof.
  intros H Hsame. rewrite !combine_unconfigured by exact H.
  unfold combine._fallback. rewrite Hsame. reflexivity.
Qed.

End Combiner.

Lemma combine_fallback_rendering_witness :
  combine.combine_tool_outputs llm_samples.no_api_key llm_samples.first_request
  = CombinedAnswerResponse.Build
      ("budget_tracker_agent: Remaining: 40 | "
       ++ "deadline_guardian_agent: failed (HTTP 503 calling http://deadline.local)").
Proof.
  apply (proj1 (@combine_fallback_rendering llm_samples.no_api_key
                                           llm_samples.first_request eq_refl)).
Defined.

Lemma combine_fallback_ignores_query_witness :
  CombinedAnswerRequest.user_query llm_samples.first_request
  <> CombinedAnswerRequest.user_query llm_samples.second_request
  /\ combine.combine_tool_outputs llm_samples.no_api_key llm_samples.first_request
     = combine.combine_tool_outputs llm_samples.no_api_key llm_samples.second_request.
Proof.
  split; [discriminate |].
  apply (@combine_fallback_ignores_query llm_samples.no_api_key
                                        llm_samples.first_request
                                        llm_samples.second_request eq_refl eq_refl).
Defined.

(* ===================================================================== *)
(** ** The history summarizer's fallback *)
(* ===================================================================== *)

Lemma length_append (s t : string) :
  String.length (s ++ t) = String.length s + String.length t.
Proof. induction s as [| a s IH]; cbn; [reflexivity | rewrite IH; reflexivity]. Qed.

Lemma length_prefix (n : nat) (s : string) : String.length (prefix n s) <= n.
Proof.
  unfold prefix. revert s.
  induction n as [| n IH]; intros [| a s]; cbn; try lia.
  specialize (IH s). lia.
Qed.

(** [history[-6:]] is the tail of the history that holds its last six
    turns, or all of them when there are fewer. *)
Lemma last6_is_tail {A} (turns : list A) :
  exists earlier,
    turns = (earlier ++ history.last6 turns)%list
    /\ List.length (history.last6 turns) = Nat.min 6 (List.length turns).
Proof.
  unfold history.last6.
  exists (firstn (List.length turns - 6) turns). split.
  - symmetry. apply firstn_skipn.
  - rewrite length_skipn. lia.
Qed.

Section Summarizer.
Variable env : openrouter.environment.

(** C8. The summary of an empty history is the empty string.  For a
    non-empty history, with no client library or no API key, the summary
    is "Conversation summary (fallback): " followed by the first 500
    characters of the last six turns, each rendered "role: content" and
    joined by " | "; its length is at most 500 plus the length of the
    prefix. *)
Theorem summarize_history_fallback :
  history.summarize_history env [] = ""
  /\ (forall turns : list dict,
         turns <> [] ->
         openrouter.unconfigured env = true ->
         let summary := history.summarize_history env turns in
         summary
         = "Conversation summary (fallback): "
           ++ prefix 500 (join " | " (map (rendered_turn (openrouter.rt env))
                                          (history.last6 turns)))
         /\ String.length summary
            <= 500 + String.length "Conversation summary (fallback): "
         /\ exists earlier,
              turns = (earlier ++ history.last6 turns)%list
              /\ List.length (history.last6 turns) = Nat.min 6 (List.length turns)).
Proof.
  split; [reflexivity |].
  intros turns Hne Hun summary.
  assert (Hs : summary
               = "Conversation summary (fallback): "
                 ++ prefix 500 (join " | " (map (rendered_turn (openrouter.rt env))
                                                (history.last6 turns)))).
  { unfold summary, history.summarize_history.
    destruct turns as [| turn rest]; [contradiction |].
    rewrite Hun. reflexivity. }
  split; [exact Hs |]. split; [| apply last6_is_tail].
  rewrite Hs, length_append.
  pose proof (length_prefix 500 (join " | " (map (rendered_turn (openrouter.rt env))
                                                 (history.last6 turns)))).
  lia.
Qed.

End Summarizer.

Lemma summarize_history_fallback_witness :
  history.summarize_history llm_samples.no_api_key llm_samples.conversation
  = "Conversation summary (fallback): assistant: two | user: three | assistant: four | "
    ++ "user: five | assistant: six | user: seven"
  /\ String.length
       (history.summarize_history llm_samples.no_api_key llm_samples.conversation)
     <= 500 + 33.
Proof.
  destruct (proj2 (@summarize_history_fallback llm_samples.no_api_key)
                  llm_samples.conversation ltac:(discriminate) eq_refl)
    as (Hs & Hlen & _).
  split; [exact Hs | exact Hlen].
Defined.

(* ===================================================================== *)
(** ** Further properties of the adapter: what the call does and returns *)
(* ===================================================================== *)

Section Built.
Variable env : environment.
Variable request_id : string.
Variable agent_meta : AgentMetadata.t.

Lemma built_error_response (type message : string) :
  In type error_types ->
  built request_id agent_meta (error_response request_id agent_meta type message).
Proof. apply built_error. Qed.

Lemma parse_progress_response_built (resp : http_response) (r : AgentResponse.t) :
  parse_progress_response env request_id agent_meta resp = Ok r ->
  built request_id agent_meta r.
Proof.
  unfold parse_progress_response, read_progress_response, try_except, with_dict, bind.
  intros H.
  branches_by ltac:(first [ apply built_success
                          | apply built_error; unfold error_types; cbn [In]; auto 10 ]) H.
Qed.

Lemma parse_budget_response_built (resp : http_response) (r : AgentResponse.t) :
  parse_budget_response env request_id agent_meta resp = Ok r ->
  built request_id agent_meta r.
Proof.
  unfold parse_budget_response, read_budget_response, try_except, with_dict, bind.
  intros H.
  branches_by ltac:(first [ apply built_success
                          | apply built_error; unfold error_types; cbn [In]; auto 10 ]) H.
Qed.

Lemma handle_response_built (endpoint : string) (resp : http_response)
      (r : AgentResponse.t) :
  handle_response env request_id agent_meta endpoint resp = Ok r ->
  built request_id agent_meta r
  \/ (special_agent agent_meta = false
      /\ status_code resp = 200%Z
      /\ exists body, json resp = Ok body /\ AgentResponse_parse env body = Ok r).
Proof.
  unfold handle_response, special_agent. intros H.
  destruct (Z.eqb_spec (status_code resp) 200) as [Hc | Hc]; cbn [negb] in H.
  - destruct (String.eqb (AgentMetadata.name agent_meta) "progress_accountability_agent").
    { left. eapply parse_progress_response_built; eassumption. }
    destruct (String.eqb (AgentMetadata.name agent_meta) "budget_tracker_agent").
    { left. eapply parse_budget_response_built; eassumption. }
    right. destruct (json resp) as [body |]; [| discriminate].
    cbn [bind] in H. repeat split; eauto.
  - left. injection H as <-. apply built_error. unfold error_types. cbn [In]. auto.
Qed.

End Built.

Section Calls.
Variable env : environment.
Variable agent_meta : AgentMetadata.t.
Variables intent text : string.
Variable context : dict.
Variable custom_input : option dict.

Let the_call := call_agent env agent_meta intent text context custom_input.

Lemma call_agent_built (r : AgentResponse.t) :
  returned the_call = Ok r ->
  built (uuid4 env) agent_meta r \/ decoded env agent_meta intent text context r.
Proof.
  unfold the_call. intros H.
  destruct (well_formed_context context) eqn:Hwf.
  2: { destruct (build_metadata_ill_formed _ Hwf) as [exc He].
       unfold call_agent in H. rewrite He in H. discriminate. }
  destruct (payload_of_well_formed env agent_meta intent text context Hwf) as [payload Hp].
  destruct (dispatches_http env agent_meta) eqn:Hd.
  - rewrite (@call_agent_http env agent_meta intent text context custom_input payload Hp Hd)
      in H.
    destruct (exchange env agent_meta payload) as [reply | exc] eqn:Hx; cbn [bind] in H.
    + destruct (handle_response env (uuid4 env) agent_meta (endpoint_text agent_meta) reply)
        as [r' | exc] eqn:Hh; cbn [try_except] in H.
      * injection H as <-.
        destruct (handle_response_built _ _ _ _ _ Hh)
          as [Hb | (Hs & Hc & body & Hj & Hparse)]; [left; exact Hb |].
        right. split; [exact Hs |]. exists payload, reply, body. auto.
      * injection H as <-. left. apply built_error. unfold error_types. cbn [In]. auto.
    + cbn [try_except] in H. injection H as <-. left.
      apply built_error. unfold error_types. cbn [In]. auto.
  - rewrite (@call_agent_not_dispatched env agent_meta intent text context custom_input Hwf Hd)
      in H.
    injection H as <-. left.
    destruct (String.eqb (AgentMetadata.type agent_meta) "http"
              && negb (httpx_installed env));
      [apply built_error; unfold error_types; cbn [In]; auto |].
    destruct (String.eqb (AgentMetadata.type agent_meta) "cli");
      apply built_error; unfold error_types; cbn [In]; auto.
Qed.

Lemma call_agent_returns :
  well_formed_context context = true -> exists r, returned the_call = Ok r.
Proof.
  unfold the_call. intros Hwf.
  destruct (payload_of_well_formed env agent_meta intent text context Hwf) as [payload Hp].
  destruct (dispatches_http env agent_meta) eqn:Hd.
  - rewrite (@call_agent_http env agent_meta intent text context custom_input payload Hp Hd).
    match goal with |- context [try_except ?b _] => destruct b end; cbn; eauto.
  - rewrite (@call_agent_not_dispatched env agent_meta intent text context custom_input Hwf Hd).
    eauto.
Qed.

(** X1. A call POSTs at most once, and only on the HTTP branch: either
    nothing is sent, or exactly one body goes to the agent's endpoint, the
    transport is [http] with an endpoint and the client library, the
    metadata code ran to its end and the client was entered. *)
Theorem call_agent_posts_at_most_once :
  posted the_call = []
  \/ exists payload,
       posted the_call = [ (endpoint_text agent_meta, payload) ]
       /\ dispatches_http env agent_meta = true
       /\ payload_of env agent_meta intent text context = Ok payload
       /\ open_client env (AgentMetadata.timeout_ms agent_meta) = Ok tt.
Proof.
  unfold the_call, call_agent, payload_of, dispatches_http.
  destruct (build_metadata context) as [metadata | exc]; [| left; reflexivity].
  cbn [bind].
  destruct (String.eqb (AgentMetadata.type agent_meta) "http"
            && endpoint_truthy agent_meta && httpx_installed env).
  - destruct (open_client env (AgentMetadata.timeout_ms agent_meta)) as [[] | exc];
      [| left; reflexivity].
    right. eexists. repeat split.
  - left.
    destruct (String.eqb (AgentMetadata.type agent_meta) "http"
              && negb (httpx_installed env)); [reflexivity |].
    destruct (String.eqb (AgentMetadata.type agent_meta) "cli"); reflexivity.
Qed.

(** X2. The call raises exactly on the ill-formed contexts, from the
    metadata code that precedes the [try], and then nothing has been
    sent. *)
Theorem call_agent_raises_iff_ill_formed :
  ((exists exc, returned the_call = Raise exc) <-> well_formed_context context = false)
  /\ (forall exc, returned the_call = Raise exc ->
                  build_metadata context = Raise exc /\ posted the_call = []).
Proof.
  split; [split |].
  - intros [exc H]. destruct (well_formed_context context) eqn:Hwf; [| reflexivity].
    destruct (call_agent_returns Hwf) as [r Hr]. congruence.
  - intros Hwf. destruct (build_metadata_ill_formed _ Hwf) as [exc He].
    exists exc. unfold the_call, call_agent. rewrite He. reflexivity.
  - intros exc H.
    destruct (well_formed_context context) eqn:Hwf.
    + destruct (call_agent_returns Hwf) as [r Hr]. congruence.
    + destruct (build_metadata_ill_formed _ Hwf) as [exc' He].
      unfold the_call, call_agent in *. rewrite He in *. cbn in H.
      injection H as <-. split; reflexivity.
Qed.

(** X3. Every response the adapter assembles itself echoes the request
    id of the call and the agent's name, and its error, if it has one, has
    one of the six types the adapter writes; the only other responses are
    decoded 200 bodies of agents without an adapter. *)
Theorem call_agent_echoes_request (r : AgentResponse.t) :
  returned the_call = Ok r ->
  decoded env agent_meta intent text context r
  \/ (AgentResponse.request_id r = uuid4 env
      /\ AgentResponse.agent_name r = AgentMetadata.name agent_meta
      /\ forall e, AgentResponse.error r = Some e -> In (ErrorModel.type e) error_types).
Proof.
  intros H. destruct (call_agent_built H) as [Hb | Hd]; [right | left; exact Hd].
  destruct Hb as [type message Hin | result_text details]; cbn.
  - repeat split. intros e [= <-]. exact Hin.
  - repeat split. discriminate.
Qed.

End Calls.

Lemma call_agent_echoes_request_witness :
  let r := error_response "00000000-0000-4000-8000-000000000001" samples.summarizer_agent
                          "network_error" "All connection attempts failed" in
  decoded samples.unreachable samples.summarizer_agent "document.summarize"
          "Summarize the attached report" samples.two_uploads r
  \/ (AgentResponse.request_id r = uuid4 samples.unreachable
      /\ AgentResponse.agent_name r = AgentMetadata.name samples.summarizer_agent
      /\ forall e, AgentResponse.error r = Some e -> In (ErrorModel.type e) error_types).
Proof.
  intros r.
  apply (@call_agent_echoes_request samples.unreachable samples.summarizer_agent
           "document.summarize" "Summarize the attached report" samples.two_uploads None r).
  reflexivity.
Defined.

(* ===================================================================== *)
(** ** Further properties of the adapter: reading a 200 reply *)
(* ===================================================================== *)

Section Reply200.
Variable env : environment.
Variable agent_meta : AgentMetadata.t.
Variables intent text : string.
Variable context : dict.
Variable custom_input : option dict.
Variable payload : value.
Variable reply : http_response.

Hypothesis dispatched : dispatches_http env agent_meta = true.
Hypothesis built_payload : payload_of env agent_meta intent text context = Ok payload.
Hypothesis answered : exchange env agent_meta payload = Ok reply.
Hypothesis status_200 : status_code reply = 200%Z.

Let answer := returned (call_agent env agent_meta intent text context custom_input).
Let network_error (exc : exn) : result AgentResponse.t :=
  Ok (error_response (uuid4 env) agent_meta "network_error" (exn_text exc)).

(** After a 200 reply the reader chosen by the agent's name decides. *)
Lemma call_agent_200 :
  answer
  = if String.eqb (AgentMetadata.name agent_meta) "progress_accountability_agent" then
      parse_progress_response env (uuid4 env) agent_meta reply
    else if String.eqb (AgentMetadata.name agent_meta) "budget_tracker_agent" then
      parse_budget_response env (uuid4 env) agent_meta reply
    else
      try_except (body <- json reply ;; AgentResponse_parse env body) network_error.
Proof.
  unfold answer.
  rewrite (@call_agent_http env agent_meta intent text context custom_input payload
                            built_payload dispatched).
  rewrite answered. cbn [bind]. unfold handle_response.
  rewrite status_200. cbn [Z.eqb Pos.eqb negb].
  destruct (String.eqb (AgentMetadata.name agent_meta) "progress_accountability_agent").
  { destruct (parse_progress_response_returns env agent_meta reply) as [r ->]. reflexivity. }
  destruct (String.eqb (AgentMetadata.name agent_meta) "budget_tracker_agent").
  { destruct (parse_budget_response_returns env agent_meta reply) as [r ->]. reflexivity. }
  reflexivity.
Qed.

(** A known agent answers through its reader, and a reader starts with
    [resp_data.get]. *)
Lemma known_agent_reads_object (body : value) :
  special_agent agent_meta = true ->
  json reply = Ok body ->
  isinstance_dict body = false ->
  answer
  = Ok (error_response (uuid4 env) agent_meta "parse_error"
          ("Failed to parse agent response: "
           ++ exn_text (AttributeError (type_name body) "get"))).
Proof.
  intros Hs Hj Hb. rewrite call_agent_200. unfold special_agent in Hs.
  destruct (String.eqb (AgentMetadata.name agent_meta) "progress_accountability_agent").
  - unfold parse_progress_response, read_progress_response. rewrite Hj. cbn [bind].
    destruct body; try discriminate; reflexivity.
  - cbn [orb] in Hs. rewrite Hs.
    unfold parse_budget_response, read_budget_response. rewrite Hj. cbn [bind].
    destruct body; try discriminate; reflexivity.
Qed.

(** X4. For an agent without an adapter of its own, a 200 reply is
    decoded and handed back as the constructor made it; a body that is
    not JSON, or that the constructor rejects, is reported as
    [network_error] with the exception's text (not as [parse_error]). *)
Theorem generic_reply_decoded_or_network_error :
  special_agent agent_meta = false ->
  (forall exc, json reply = Raise exc ->
               error_answer answer "network_error" (exn_text exc))
  /\ (forall body exc,
         json reply = Ok body ->
         AgentResponse_parse env body = Raise exc ->
         error_answer answer "network_error" (exn_text exc))
  /\ (forall body r,
         json reply = Ok body ->
         AgentResponse_parse env body = Ok r ->
         answer = Ok r).
Proof.
  intros Hs. rewrite call_agent_200. unfold special_agent in Hs.
  apply orb_false_elim in Hs as [-> ->].
  split; [| split].
  - intros exc ->. (eexists; split; [reflexivity |]; repeat split).
  - intros body exc -> H. cbn [bind]. rewrite H. (eexists; split; [reflexivity |]; repeat split).
  - intros body r -> H. cbn [bind]. rewrite H. reflexivity.
Qed.

(** X5. For the budget-tracking and the progress/accountability agent,
    a 200 reply whose JSON body is not an object (a list, a string, a
    number, [null]) is reported as [parse_error]: the reader's first
    [resp_data.get] fails on it. *)
Theorem known_agent_non_object_is_parse_error (body : value) :
  special_agent agent_meta = true ->
  json reply = Ok body ->
  isinstance_dict body = false ->
  exists r,
    answer = Ok r
    /\ is_error r "parse_error"
    /\ AgentResponse.error r
       = Some (ErrorModel.Build
                 "parse_error"
                 ("Failed to parse agent response: '" ++ type_name body
                  ++ "' object has no attribute 'get'")).
Proof.
  intros Hs Hj Hb. rewrite (known_agent_reads_object Hs Hj Hb).
  eexists. split; [reflexivity |]. split; [| reflexivity].
  repeat split. eexists. reflexivity.
Qed.

End Reply200.

Lemma all_strings_of_texts (fields : list string) :
  forall i, all_strings i (map VStr fields) = Ok fields.
Proof.
  induction fields as [| f rest IH]; intros i; cbn [map all_strings]; [reflexivity |].
  rewrite IH. reflexivity.
Qed.

Section ProgressReply.
Variable env : environment.
Variable agent_meta : AgentMetadata.t.
Variables intent text : string.
Variable context : dict.
Variable custom_input : option dict.
Variable payload : value.
Variable reply : http_response.
Variable d : dict.

Hypothesis to_progress_agent :
  AgentMetadata.name agent_meta = "progress_accountability_agent".
Hypothesis dispatched : dispatches_http env agent_meta = true.
Hypothesis built_payload : payload_of env agent_meta intent text context = Ok payload.
Hypothesis answered : exchange env agent_meta payload = Ok reply.
Hypothesis status_200 : status_code reply = 200%Z.
Hypothesis body : json reply = Ok (VDict d).

Let answer := returned (call_agent env agent_meta intent text context custom_input).
Let details := Some (json_dumps_indent2 (rt env) (VDict d)).

Lemma call_agent_progress :
  answer = parse_progress_response env (uuid4 env) agent_meta reply.
Proof.
  unfold answer.
  rewrite (@call_agent_200 env agent_meta intent text context custom_input payload reply
                           dispatched built_payload answered status_200).
  rewrite to_progress_agent. reflexivity.
Qed.

(** X6. A reply of the progress/accountability agent whose [status] is
    "error" comes back as [agent_error] with the reply's [message] as
    text, or "Unknown error from progress_accountability_agent" when it
    has none. *)
Theorem progress_error_status :
  lookup d "status" = Some (VStr "error") ->
  error_answer answer "agent_error"
               (match lookup d "message" with
                | Some message => str (rt env) message
                | None => "Unknown error from progress_accountability_agent"
                end).
Proof.
  intros Hs. rewrite call_agent_progress. unfold parse_progress_response, read_progress_response.
  rewrite body. cbn [bind with_dict].
  assert (Hst : dict_get d "status" (VStr "") = VStr "error")
    by (unfold dict_get; rewrite Hs; reflexivity).
  rewrite Hst. cbn [eq_str String.eqb Ascii.eqb Bool.eqb try_except].
  unfold dict_get. destruct (lookup d "message"); (eexists; split; [reflexivity |]; repeat split).
Qed.

(** X7. A reply whose [status] is "incomplete" comes back as a success:
    its text is the reply's [message] (or "Some information is missing."),
    a line break, and "Missing: " followed by the names in
    [missing_fields] (else [missing_parts]) joined by ", ", or by
    "unknown" when that list is empty or absent.  When the list is truthy
    and cannot be joined the answer is a [parse_error]. *)
Theorem progress_incomplete_is_success :
  lookup d "status" = Some (VStr "incomplete") ->
  let message := str (rt env) (dict_get d "message" (VStr "Some information is missing.")) in
  (truthy (missing_of d) = false ->
   success_answer answer (VStr (message ++ nl ++ "Missing: unknown")) details)
  /\ (forall fields,
         missing_of d = VList (map VStr fields) ->
         fields <> [] ->
         success_answer answer
                        (VStr (message ++ nl ++ "Missing: " ++ join ", " fields))
                        details)
  /\ (truthy (missing_of d) = true ->
      joinable (missing_of d) = false ->
      exists r, answer = Ok r /\ is_error r "parse_error").
Proof.
  intros Hs message. rewrite call_agent_progress. unfold parse_progress_response, read_progress_response.
  rewrite body. cbn [bind with_dict].
  assert (Hst : dict_get d "status" (VStr "") = VStr "incomplete")
    by (unfold dict_get; rewrite Hs; reflexivity).
  rewrite Hst. cbn [eq_str String.eqb Ascii.eqb Bool.eqb].
  fold (missing_of d).
  split; [| split].
  - intros ->. (eexists; split; [reflexivity |]; repeat split).
  - intros fields Hm Hne. rewrite Hm.
    destruct fields as [| f rest]; [contradiction |].
    cbn [map truthy].
    change (VStr f :: map VStr rest) with (map VStr (f :: rest)).
    cbn [join_value]. rewrite all_strings_of_texts. (eexists; split; [reflexivity |]; repeat split).
  - intros -> Hj. destruct (not_joinable_join_value ", " _ Hj) as [exc ->].
    cbn [bind try_except]. eexists. split; [reflexivity |].
    repeat split. eexists. reflexivity.
Qed.

(** X8. A reply with a [status] the reader does not know and none of the
    accountability keys is handed through: the value under [reply], else
    the value under [message], unchanged (text or not), else the whole
    body as JSON text; always as a success. *)
Theorem progress_unrecognised_status :
  recognised (dict_get d "status" (VStr "")) = false ->
  contains d "generated_at" || contains d "goal_risks"
  || contains d "performance_metrics" = false ->
  success_answer answer
                 (match lookup d "reply", lookup d "message" with
                  | Some reply_value, _ => reply_value
                  | None, Some message => message
                  | None, None => VStr (json_dumps_indent2 (rt env) (VDict d))
                  end)
                 details.
Proof.
  intros Hr Hk. rewrite call_agent_progress. unfold parse_progress_response, read_progress_response.
  rewrite body. cbn [bind with_dict].
  unfold recognised in Hr. cbn [existsb] in Hr.
  repeat (apply orb_false_elim in Hr as [? Hr]).
  repeat match goal with H : eq_str _ _ = false |- _ => rewrite H; clear H end.
  rewrite Hk. unfold contains, dict_get.
  destruct (lookup d "reply"); [(eexists; split; [reflexivity |]; repeat split) |].
  destruct (lookup d "message"); (eexists; split; [reflexivity |]; repeat split).
Qed.

End ProgressReply.

Lemma generic_reply_decoded_or_network_error_witness :
  error_answer
    (returned (call_agent (samples.answering (Ok samples.html_page))
                          samples.summarizer_agent "document.summarize" "Summarize"
                          samples.two_uploads None))
    "network_error" "Expecting value: line 1 column 1 (char 0)".
Proof.
  refine (proj1 (@generic_reply_decoded_or_network_error
                   (samples.answering (Ok samples.html_page))
                   samples.summarizer_agent "document.summarize" "Summarize"
                   samples.two_uploads None _ samples.html_page
                   eq_refl eq_refl eq_refl eq_refl eq_refl)
                (Exn "JSONDecodeError" "Expecting value: line 1 column 1 (char 0)")
                eq_refl).
Defined.

Lemma known_agent_non_object_is_parse_error_witness :
  exists r,
    returned (call_agent (samples.answering (Ok samples.json_list))
                         samples.budget_agent "budget.check" "How much is left?"
                         samples.direct_update None) = Ok r
    /\ is_error r "parse_error"
    /\ AgentResponse.error r
       = Some (ErrorModel.Build
                 "parse_error"
                 "Failed to parse agent response: 'list' object has no attribute 'get'").
Proof.
  exact (@known_agent_non_object_is_parse_error
           (samples.answering (Ok samples.json_list))
           samples.budget_agent "budget.check" "How much is left?"
           samples.direct_update None _ samples.json_list
           eq_refl eq_refl eq_refl eq_refl (VList [ VStr "ok" ])
           eq_refl eq_refl eq_refl).
Defined.

Lemma progress_error_status_witness :
  error_answer
    (returned (call_agent (samples.answering (samples.ok_reply (VDict samples.failed_goal)))
                          samples.progress_agent "goal.update" "Half way there"
                          samples.direct_update None))
    "agent_error" "Goal g-42 not found".
Proof.
  exact (@progress_error_status
           (samples.answering (samples.ok_reply (VDict samples.failed_goal)))
           samples.progress_agent "goal.update" "Half way there"
           samples.direct_update None _
           (HttpResponse 200 (Ok (VDict samples.failed_goal))) samples.failed_goal
           eq_refl eq_refl eq_refl eq_refl eq_refl eq_refl eq_refl).
Defined.

Lemma progress_incomplete_is_success_witness :
  success_answer
    (returned (call_agent
                 (samples.answering (samples.ok_reply (VDict samples.incomplete_goal)))
                 samples.progress_agent "goal.create" "Run a marathon"
                 samples.direct_update None))
    (VStr ("I need a bit more to create this goal." ++ nl
           ++ "Missing: deadline, priority"))
    (Some "<json>").
Proof.
  refine (proj1 (proj2 (@progress_incomplete_is_success
                          (samples.answering (samples.ok_reply (VDict samples.incomplete_goal)))
                          samples.progress_agent "goal.create" "Run a marathon"
                          samples.direct_update None _
                          (HttpResponse 200 (Ok (VDict samples.incomplete_goal)))
                          samples.incomplete_goal
                          eq_refl eq_refl eq_refl eq_refl eq_refl eq_refl eq_refl))
                [ "deadline"; "priority" ] eq_refl _).
  discriminate.
Defined.

Lemma progress_unrecognised_status_witness :
  success_answer
    (returned (call_agent (samples.answering (samples.ok_reply (VDict samples.chat_reply)))
                          samples.progress_agent "productivity.freeform" "How am I doing?"
                          samples.direct_update None))
    (VStr "Nice work this week.") (Some "<json>").
Proof.
  exact (@progress_unrecognised_status
           (samples.answering (samples.ok_reply (VDict samples.chat_reply)))
           samples.progress_agent "productivity.freeform" "How am I doing?"
           samples.direct_update None _
           (HttpResponse 200 (Ok (VDict samples.chat_reply))) samples.chat_reply
           eq_refl eq_refl eq_refl eq_refl eq_refl eq_refl eq_refl eq_refl).
Defined.

Section BudgetVerbatim.
Variable env : environment.
Variable agent_meta : AgentMetadata.t.
Variables intent text : string.
Variable context : dict.
Variable custom_input : option dict.
Variable payload : value.
Variable reply : http_response.
Variable d : dict.

Hypothesis to_budget_agent : AgentMetadata.name agent_meta = "budget_tracker_agent".
Hypothesis dispatched : dispatches_http env agent_meta = true.
Hypothesis built_payload : payload_of env agent_meta intent text context = Ok payload.
Hypothesis answered : exchange env agent_meta payload = Ok reply.
Hypothesis status_200 : status_code reply = 200%Z.
Hypothesis body : json reply = Ok (VDict d).

Let answer := returned (call_agent env agent_meta intent text context custom_input).

Lemma call_agent_budget_object :
  answer = parse_budget_response env (uuid4 env) agent_meta reply.
Proof.
  unfold answer.
  rewrite (@call_agent_200 env agent_meta intent text context custom_input payload reply
                           dispatched built_payload answered status_200).
  rewrite to_budget_agent. reflexivity.
Qed.

(** X9. A budget reply with a truthy [success] and a truthy [response]
    comes back as a success whose result is that [response], unchanged;
    the other fields are not formatted, so their types do not matter. *)
Theorem budget_response_verbatim :
  truthy (dict_get d "success" (VBool false)) = true ->
  truthy (dict_get d "response" VNone) = true ->
  success_answer answer (dict_get d "response" VNone)
                 (Some (json_dumps_indent2 (rt env) (VDict d))).
Proof.
  intros Hs Hr. rewrite call_agent_budget_object. unfold parse_budget_response, read_budget_response.
  rewrite body. cbn [bind with_dict]. rewrite Hs, Hr. cbn [negb bind try_except].
  destruct d; [discriminate Hs | (eexists; split; [reflexivity |]; repeat split)].
Qed.

(** X10. A budget reply whose [success] is falsy or missing comes back
    as [agent_error]; the message is the text of [error] when the reply
    has that key, else of [message], else "Unknown error from budget
    tracker agent". *)
Theorem budget_error_message :
  truthy (dict_get d "success" (VBool false)) = false ->
  error_answer answer "agent_error"
               (match lookup d "error", lookup d "message" with
                | Some error, _ => str (rt env) error
                | None, Some message => str (rt env) message
                | None, None => "Unknown error from budget tracker agent"
                end).
Proof.
  intros Hs. rewrite call_agent_budget_object. unfold parse_budget_response, read_budget_response.
  rewrite body. cbn [bind with_dict]. rewrite Hs. cbn [try_except].
  unfold dict_get. destruct (lookup d "error"); [(eexists; split; [reflexivity |]; repeat split) |].
  destruct (lookup d "message"); (eexists; split; [reflexivity |]; repeat split).
Qed.

End BudgetVerbatim.

Lemma budget_response_verbatim_witness :
  success_answer
    (returned (call_agent
                 (samples.answering
                    (samples.ok_reply (VDict samples.budget_answer_with_odd_fields)))
                 samples.budget_agent "budget.check" "How much is left?"
                 samples.direct_update None))
    (VStr "You have 40 dollars left.") (Some "<json>").
Proof.
  exact (@budget_response_verbatim
           (samples.answering (samples.ok_reply (VDict samples.budget_answer_with_odd_fields)))
           samples.budget_agent "budget.check" "How much is left?"
           samples.direct_update None _
           (HttpResponse 200 (Ok (VDict samples.budget_answer_with_odd_fields)))
           samples.budget_answer_with_odd_fields
           eq_refl eq_refl eq_refl eq_refl eq_refl eq_refl eq_refl eq_refl).
Defined.

Lemma budget_error_message_witness :
  error_answer
    (returned (call_agent (samples.answering (samples.ok_reply (VDict samples.budget_refused)))
                          samples.budget_agent "budget.check" "How much is left?"
                          samples.direct_update None))
    "agent_error" "No budget found for project Apollo".
Proof.
  exact (@budget_error_message
           (samples.answering (samples.ok_reply (VDict samples.budget_refused)))
           samples.budget_agent "budget.check" "How much is left?"
           samples.direct_update None _
           (HttpResponse 200 (Ok (VDict samples.budget_refused))) samples.budget_refused
           eq_refl eq_refl eq_refl eq_refl eq_refl eq_refl eq_refl).
Defined.

(* ===================================================================== *)
(** ** Further properties of the adapter: what is sent *)
(* ===================================================================== *)

Section Sent.
Variable env : environment.
Variable agent_meta : AgentMetadata.t.
Variables intent text : string.
Variable context : dict.
Variable custom_input : option dict.

Hypothesis well_formed : well_formed_context context = true.
Hypothesis dispatched : dispatches_http env agent_meta = true.
Hypothesis entered : open_client env (AgentMetadata.timeout_ms agent_meta) = Ok tt.

Let sent := posted (call_agent env agent_meta intent text context custom_input).

Lemma sent_payload :
  exists metadata,
    build_metadata context = Ok metadata
    /\ sent = [ (endpoint_text agent_meta,
                 build_payload agent_meta intent text context
                   (handshake_of (uuid4 env) agent_meta intent text metadata context)) ].
Proof.
  destruct (build_metadata_well_formed _ well_formed) as [metadata Hm].
  exists metadata. split; [exact Hm |].
  unfold sent. apply posted_http; try assumption.
  unfold payload_of. rewrite Hm. reflexivity.
Qed.

(** X11. The budget-tracking agent is sent the query text and nothing
    else: the body is [{"query": text}] whatever the intent and whatever
    the context holds (user id, uploads). *)
Theorem budget_payload_is_query_only :
  AgentMetadata.name agent_meta = "budget_tracker_agent" ->
  sent = [ (endpoint_text agent_meta, VDict [ ("query", VStr text) ]) ].
Proof.
  intros Hn. destruct sent_payload as (metadata & _ & ->).
  unfold build_payload. rewrite Hn. reflexivity.
Qed.

(** X12. An agent without an adapter of its own is sent the request
    itself: the call's request id, the agent's name, the intent, the text
    with the metadata, and the whole context unchanged (so every upload
    of the context travels in it, beside the one in the metadata). *)
Theorem generic_payload_is_request :
  special_agent agent_meta = false ->
  exists payload metadata,
    sent = [ (endpoint_text agent_meta, payload) ]
    /\ build_metadata context = Ok metadata
    /\ field payload "request_id" = Some (VStr (uuid4 env))
    /\ field payload "agent_name" = Some (VStr (AgentMetadata.name agent_meta))
    /\ field payload "intent" = Some (VStr intent)
    /\ field payload "input"
       = Some (VDict [ ("text", VStr text); ("metadata", VDict metadata) ])
    /\ field payload "context" = Some (VDict context).
Proof.
  intros Hs. destruct sent_payload as (metadata & Hm & ->).
  unfold special_agent in Hs. apply orb_false_elim in Hs as [Hp Hb].
  unfold build_payload. rewrite Hp, Hb.
  do 2 eexists. split; [reflexivity |]. split; [exact Hm |].
  repeat split.
Qed.

(** The params of the body for the progress/accountability agent, by
    intent. *)
Lemma progress_params_by_intent :
  (let task := table_get PROGRESS_AGENT_INTENT_MAP intent "accountability" in
   if String.eqb task "freeform_message" then [ ("message", VStr text) ]
   else if String.eqb task "goal" then [ ("message", VStr text) ]
   else if String.eqb intent "goal.update"
           && truthy (dict_get context "goal_id" VNone)
           && truthy (dict_get context "progress" VNone) then
     [ ("goal_id", dict_get context "goal_id" VNone);
       ("progress", dict_get context "progress" VNone) ]
   else [])
  = if existsb (String.eqb intent) freeform_intents then [ ("message", VStr text) ]
    else [].
Proof.
  unfold table_get, PROGRESS_AGENT_INTENT_MAP, freeform_intents.
  cbn [table_lookup existsb].
  repeat match goal with
         | |- context [String.eqb ?a intent] =>
             destruct (String.eqb_spec a intent); [subst intent; reflexivity |]
         end.
  repeat match goal with
         | |- context [String.eqb intent ?a] =>
             destruct (String.eqb_spec intent a); [congruence |]
         end.
  reflexivity.
Qed.

(** X13. The progress/accountability agent is sent the user's text only
    for the intents [goal.create], [goal.update], [reflection.add] and
    [productivity.freeform], as [params.message]; for every other intent
    [params] is empty and the text does not reach the agent.  [user_id]
    is the context's, or "anonymous". *)
Theorem progress_params_by_intent_sent :
  AgentMetadata.name agent_meta = "progress_accountability_agent" ->
  exists payload,
    sent = [ (endpoint_text agent_meta, payload) ]
    /\ field payload "user_id"
       = Some (match lookup context "user_id" with
               | Some user_id => user_id
               | None => VStr "anonymous"
               end)
    /\ field payload "params"
       = Some (VDict (if existsb (String.eqb intent) freeform_intents
                      then [ ("message", VStr text) ] else [])).
Proof.
  intros Hn. destruct sent_payload as (metadata & _ & ->).
  rewrite build_payload_progress by exact Hn.
  eexists. split; [reflexivity |]. split; [reflexivity |].
  cbn [field lookup String.eqb Ascii.eqb Bool.eqb].
  rewrite <- progress_params_by_intent.
  unfold table_get.
  destruct (String.eqb _ "freeform_message"); [reflexivity |].
  destruct (String.eqb _ "goal"); [reflexivity |].
  destruct (String.eqb intent "goal.update" && _ && _); reflexivity.
Qed.

End Sent.

Lemma budget_payload_is_query_only_witness :
  posted (call_agent (samples.answering (samples.ok_reply samples.budget_with_response))
                     samples.budget_agent "budget.check" "How much is left?"
                     samples.two_uploads None)
  = [ ("http://budget.local/query", VDict [ ("query", VStr "How much is left?") ]) ].
Proof.
  exact (@budget_payload_is_query_only
           (samples.answering (samples.ok_reply samples.budget_with_response))
           samples.budget_agent "budget.check" "How much is left?"
           samples.two_uploads None eq_refl eq_refl eq_refl eq_refl).
Defined.

Lemma generic_payload_is_request_witness :
  exists payload metadata,
    posted (call_agent samples.unreachable samples.summarizer_agent "document.summarize"
                       "Summarize the attached report" samples.two_uploads None)
    = [ (endpoint_text samples.summarizer_agent, payload) ]
    /\ build_metadata samples.two_uploads = Ok metadata
    /\ field payload "request_id" = Some (VStr (uuid4 samples.unreachable))
    /\ field payload "agent_name" = Some (VStr "document_summarizer_agent")
    /\ field payload "intent" = Some (VStr "document.summarize")
    /\ field payload "input"
       = Some (VDict [ ("text", VStr "Summarize the attached report");
                       ("metadata", VDict metadata) ])
    /\ field payload "context" = Some (VDict samples.two_uploads).
Proof.
  exact (@generic_payload_is_request
           samples.unreachable samples.summarizer_agent "document.summarize"
           "Summarize the attached report" samples.two_uploads None
           eq_refl eq_refl eq_refl eq_refl).
Defined.

Lemma progress_params_by_intent_sent_witness :
  exists payload,
    posted (call_agent (samples.answering (samples.ok_reply (VDict samples.chat_reply)))
                       samples.progress_agent "productivity.report"
                       "How did my week go?" samples.direct_update None)
    = [ (endpoint_text samples.progress_agent, payload) ]
    /\ field payload "user_id" = Some (VStr "u-17")
    /\ field payload "params" = Some (VDict []).
Proof.
  exact (@progress_params_by_intent_sent
           (samples.answering (samples.ok_reply (VDict samples.chat_reply)))
           samples.progress_agent "productivity.report" "How did my week go?"
           samples.direct_update None eq_refl eq_refl eq_refl eq_refl).
Defined.

(** X14. Whenever the metadata code runs to its end, the metadata is the
    fixed pair [language = "en"], [extra = {}] alone, or that pair
    followed by all three upload keys [file_base64], [mime_type],
    [filename] with a truthy payload: an upload is attached whole or not
    at all, and the fixed pair is never overwritten. *)
Theorem metadata_all_or_nothing (context metadata : dict) :
  build_metadata context = Ok metadata ->
  metadata = [ ("language", VStr "en"); ("extra", VDict []) ]
  \/ exists base64_data mime_type filename,
       truthy base64_data = true
       /\ metadata = [ ("language", VStr "en"); ("extra", VDict []);
                       ("file_base64", base64_data);
                       ("mime_type", mime_type);
                       ("filename", filename) ].
Proof.
  unfold build_metadata, bind. intros H.
  repeat match type of H with
         | context [if truthy ?v then _ else _] =>
             let Ht := fresh "Ht" in destruct (truthy v) eqn:Ht
         | context [match ?x with _ => _ end] => destruct x eqn:?
         end;
    try discriminate H; injection H as <-;
    first [ left; reflexivity
          | right; do 3 eexists; split; [eassumption | reflexivity] ].
Qed.

Lemma metadata_all_or_nothing_witness :
  metadata_for [ ("base64_data", VStr "JVBERi0xLjQ=");
                 ("mime_type", VStr "application/pdf");
                 ("filename", VStr "report.pdf") ]
  = [ ("language", VStr "en"); ("extra", VDict []) ]
  \/ exists base64_data mime_type filename,
       truthy base64_data = true
       /\ metadata_for [ ("base64_data", VStr "JVBERi0xLjQ=");
                         ("mime_type", VStr "application/pdf");
                         ("filename", VStr "report.pdf") ]
          = [ ("language", VStr "en"); ("extra", VDict []);
              ("file_base64", base64_data);
              ("mime_type", mime_type);
              ("filename", filename) ].
Proof.
  apply (@metadata_all_or_nothing samples.two_uploads). reflexivity.
Defined.

(* ===================================================================== *)
(** ** Further properties of the formatters *)
(* ===================================================================== *)

Section Formatters.
Variable r : runtime.

Lemma goal_risk_line_typed (goal_id : string) (risk_info : value) :
  risk_typed risk_info = true ->
  exists line, goal_risk_line r goal_id risk_info = Ok line.
Proof.
  unfold risk_typed, goal_risk_line.
  destruct risk_info; try discriminate. cbn [get bind].
  destruct (dict_get d "risk" (VStr "unknown")); try discriminate.
  cbn [upper bind]. eauto.
Qed.

Lemma goal_risk_line_untyped (goal_id : string) (risk_info : value) :
  risk_typed risk_info = false ->
  exists exc, goal_risk_line r goal_id risk_info = Raise exc.
Proof.
  unfold risk_typed, goal_risk_line.
  destruct risk_info; cbn [get bind]; eauto.
  destruct (dict_get d "risk" (VStr "unknown")); try discriminate;
    cbn [upper bind]; eauto.
Qed.

Lemma goal_risk_lines_typed (items : list (string * value)) :
  forallb (fun item => risk_typed (snd item)) items = true ->
  forall lines, exists lines', goal_risk_lines r lines items = Ok lines'.
Proof.
  induction items as [| [goal_id risk_info] rest IH]; cbn [forallb goal_risk_lines snd];
    intros H lines; [eauto |].
  apply andb_prop in H as [Hi Hrest].
  destruct (goal_risk_line_typed goal_id _ Hi) as [line ->]. cbn [bind].
  apply IH. exact Hrest.
Qed.

Lemma goal_risk_lines_untyped (items : list (string * value)) :
  forallb (fun item => risk_typed (snd item)) items = false ->
  forall lines, exists exc, goal_risk_lines r lines items = Raise exc.
Proof.
  induction items as [| [goal_id risk_info] rest IH]; cbn [forallb goal_risk_lines snd];
    intros H lines; [discriminate |].
  destruct (risk_typed risk_info) eqn:Hi.
  - destruct (goal_risk_line_typed goal_id _ Hi) as [line ->]. cbn [bind].
    apply IH. exact H.
  - destruct (goal_risk_line_untyped goal_id _ Hi) as [exc ->]. cbn [bind]. eauto.
Qed.

(** X15. [format_accountability_response] returns a text exactly when
    the two blocks it formats have the types it needs: the metrics are
    not a mapping, or carry a truthy [message], or their
    [completion_rate] is a number that converts to [float] (an integer
    from [2**1024 - 2**970] on overflows); and the goal risks are falsy,
    or a mapping whose entries are mappings with a textual [risk].  In
    every other case it raises. *)
Theorem format_accountability_response_returns_iff (data : dict) :
  (accountability_typed data = true ->
   exists text, format_accountability_response r data = Ok text)
  /\ (accountability_typed data = false ->
      exists exc, format_accountability_response r data = Raise exc).
Proof.
  unfold accountability_typed, format_accountability_response.
  set (start := if truthy (dict_get data "generated_at" (VStr "")) then _ else _).
  set (lines0 := extend start _).
  generalize lines0. clear start lines0. intros lines0.
  assert (Hrisks :
            forall lines,
              (goal_risks_typed (dict_get data "goal_risks" (VDict [])) = true ->
               exists lines',
                 (if truthy (dict_get data "goal_risks" (VDict [])) then
                    its <- items (dict_get data "goal_risks" (VDict [])) ;;
                    goal_risk_lines r (extend lines [ "Goal Risks:" ]) its
                  else Ok (extend lines [ "Goal Risks: None" ])) = Ok lines')
              /\ (goal_risks_typed (dict_get data "goal_risks" (VDict [])) = false ->
                  exists exc,
                    (if truthy (dict_get data "goal_risks" (VDict [])) then
                       its <- items (dict_get data "goal_risks" (VDict [])) ;;
                       goal_risk_lines r (extend lines [ "Goal Risks:" ]) its
                     else Ok (extend lines [ "Goal Risks: None" ])) = Raise exc)).
  { intros lines. unfold goal_risks_typed.
    destruct (truthy (dict_get data "goal_risks" (VDict []))) eqn:Ht;
      cbn [negb orb]; [| split; [eauto | discriminate]].
    destruct (dict_get data "goal_risks" (VDict [])) as [| | | | | | risks];
      cbn [items bind]; try (split; [discriminate | eauto]).
    split; intros H.
    - apply goal_risk_lines_typed. exact H.
    - apply goal_risk_lines_untyped. exact H. }
  unfold metrics_typed.
  destruct (dict_get data "performance_metrics" (VDict [])) as [| | | | | | m];
    cbn [andb bind];
    try (destruct (Hrisks (extend lines0 [ "" ])) as [Hok Hbad];
         split; intros H;
         [destruct (Hok H) as [lines' ->] | destruct (Hbad H) as [exc ->]];
         cbn [bind]; eauto).
  destruct (truthy (dict_get m "message" VNone)); cbn [orb andb bind].
  - match goal with
    | |- context [extend (extend lines0 ?l) [ "" ]] =>
        destruct (Hrisks (extend (extend lines0 l) [ "" ])) as [Hok Hbad]
    end.
    split; intros H;
      [destruct (Hok H) as [lines' ->] | destruct (Hbad H) as [exc ->]];
      cbn [bind]; eauto.
  - destruct (converts_to_float (dict_get m "completion_rate" (VInt 0))) eqn:Hrate.
    + rewrite (format_numeric_converts "%" (format_pct1 r) _ Hrate). cbn [andb bind].
      match goal with
      | |- context [extend (extend lines0 ?l) [ "" ]] =>
          destruct (Hrisks (extend (extend lines0 l) [ "" ])) as [Hok Hbad]
      end.
      split; intros H;
        [destruct (Hok H) as [lines' ->] | destruct (Hbad H) as [exc ->]];
        cbn [bind]; eauto.
    + destruct (format_numeric_rejects "%" (format_pct1 r) _ Hrate) as [exc ->].
      cbn [andb bind]. split; [discriminate | eauto].
Qed.

(** X16. [format_goal_created_response] returns a text exactly when
    [used_data] is falsy (missing, empty, [None]) or a mapping; a truthy
    [used_data] of another type makes it raise. *)
Theorem format_goal_created_response_returns_iff (data : dict) :
  let used_data := dict_get data "used_data" (VDict []) in
  (negb (truthy used_data) || isinstance_dict used_data = true ->
   exists text, format_goal_created_response r data = Ok text)
  /\ (negb (truthy used_data) || isinstance_dict used_data = false ->
      exists exc, format_goal_created_response r data = Raise exc).
Proof.
  cbv zeta. unfold format_goal_created_response.
  destruct (truthy (dict_get data "used_data" (VDict []))) eqn:Ht; cbn [negb orb bind];
    [| split; [eauto | discriminate]].
  destruct (dict_get data "used_data" (VDict [])); cbn [isinstance_dict get bind];
    split; intros H; try discriminate H; eauto.
Qed.

End Formatters.

Lemma format_accountability_response_returns_iff_witness :
  exists text,
    format_accountability_response samples.plain_runtime samples.accountability_report
    = Ok text.
Proof.
  apply (proj1 (@format_accountability_response_returns_iff
                  samples.plain_runtime samples.accountability_report)).
  reflexivity.
Defined.

Lemma format_goal_created_response_returns_iff_witness :
  exists text,
    format_goal_created_response samples.plain_runtime samples.goal_created = Ok text.
Proof.
  apply (proj1 (@format_goal_created_response_returns_iff
                  samples.plain_runtime samples.goal_created)).
  reflexivity.
Defined.

(* ===================================================================== *)
(** ** Further properties of the combiner and the summarizer *)
(* ===================================================================== *)

Section ModelPath.
Variable env : openrouter.environment.

Let url := "https://openrouter.ai/api/v1".

(** What [complete_or] hands back, by what the model did. *)
Lemma complete_or_model_answer {A} (system_prompt user_prompt : string)
      (wrap : string -> A) (fallback : A) :
  openrouter.complete_or env system_prompt user_prompt wrap fallback
  = match model_answer env system_prompt user_prompt with
    | Some text => wrap text
    | None => fallback
    end.
Proof.
  unfold openrouter.complete_or, model_answer.
  destruct (openrouter.create env (openrouter.OPENROUTER_MODEL env)
                              system_prompt user_prompt) as [[| [content |] rest] | exc];
    reflexivity.
Qed.

Lemma combine_fallback_rendered (req : CombinedAnswerRequest.t) :
  combine._fallback (openrouter.rt env) req
  = CombinedAnswerResponse.Build
      (rendered_outputs (openrouter.rt env) (CombinedAnswerRequest.tool_outputs req)).
Proof.
  unfold combine._fallback, rendered_outputs. rewrite stitch_entries. cbn [app].
  destruct (CombinedAnswerRequest.tool_outputs req); reflexivity.
Qed.

(** X17. The combiner degrades in place.  Its answer is the stitched
    fallback when the client cannot be constructed, when the completion
    call raises, when the model returns no choice, and when the first
    choice has no content; with a configured model whose first choice has
    content, the answer is that content stripped of surrounding white
    space.  It never raises and never returns anything else. *)
Theorem combine_degrades_in_place (req : CombinedAnswerRequest.t) :
  let fallback :=
    CombinedAnswerResponse.Build
      (rendered_outputs (openrouter.rt env) (CombinedAnswerRequest.tool_outputs req)) in
  let ask :=
    openrouter.create env (openrouter.OPENROUTER_MODEL env) combine.system_prompt
      (json_dumps_indent2 (openrouter.rt env) (VDict (combine.user_payload req))) in
  let answer := combine.combine_tool_outputs env req in
  (forall exc, openrouter.OpenAI env url (openrouter.api_key_text env) = Raise exc ->
               answer = fallback)
  /\ (forall exc, ask = Raise exc -> answer = fallback)
  /\ (ask = Ok [] -> answer = fallback)
  /\ (forall rest, ask = Ok (None :: rest) -> answer = fallback)
  /\ (forall content rest,
         openrouter.unconfigured env = false ->
         openrouter.OpenAI env url (openrouter.api_key_text env) = Ok tt ->
         ask = Ok (Some content :: rest) ->
         answer = CombinedAnswerResponse.Build (strip content)).
Proof.
  cbv zeta. unfold combine.combine_tool_outputs.
  rewrite complete_or_model_answer, combine_fallback_rendered. unfold model_answer, url.
  repeat split.
  - intros exc ->. destruct (openrouter.unconfigured env); reflexivity.
  - intros exc ->. destruct (openrouter.unconfigured env); [reflexivity |].
    destruct (openrouter.OpenAI env _ _); reflexivity.
  - intros ->. destruct (openrouter.unconfigured env); [reflexivity |].
    destruct (openrouter.OpenAI env _ _); reflexivity.
  - intros rest ->. destruct (openrouter.unconfigured env); [reflexivity |].
    destruct (openrouter.OpenAI env _ _); reflexivity.
  - intros content rest -> -> ->. reflexivity.
Qed.

(** X18. The summarizer degrades in place.  For a non-empty history its
    summary is the fallback text when the client cannot be constructed,
    when the completion call raises, when the model returns no choice,
    and when the first choice has no content; with a configured model
    whose first choice has content, the summary is that content stripped
    of surrounding white space (and is not cut to 500 characters). *)
Theorem summarize_degrades_in_place (turns : list dict) :
  turns <> [] ->
  let fallback :=
    history.fallback_prefix
    ++ prefix 500 (join " | " (map (rendered_turn (openrouter.rt env))
                                   (history.last6 turns))) in
  let ask :=
    openrouter.create env (openrouter.OPENROUTER_MODEL env) history.system_prompt
      (json_dumps_indent2 (openrouter.rt env)
         (VDict [ ("history", VList (map VDict (history.last6 turns))) ])) in
  let summary := history.summarize_history env turns in
  (forall exc, openrouter.OpenAI env url (openrouter.api_key_text env) = Raise exc ->
               summary = fallback)
  /\ (forall exc, ask = Raise exc -> summary = fallback)
  /\ (ask = Ok [] -> summary = fallback)
  /\ (forall rest, ask = Ok (None :: rest) -> summary = fallback)
  /\ (forall content rest,
         openrouter.unconfigured env = false ->
         openrouter.OpenAI env url (openrouter.api_key_text env) = Ok tt ->
         ask = Ok (Some content :: rest) ->
         summary = strip content).
Proof.
  intros Hne. cbv zeta.
  assert (Hs : history.summarize_history env turns
               = if openrouter.unconfigured env then
                   history._fallback (openrouter.rt env) turns
                 else
                   match openrouter.OpenAI env url (openrouter.api_key_text env) with
                   | Raise _ => history._fallback (openrouter.rt env) turns
                   | Ok _ =>
                       openrouter.complete_or env history.system_prompt
                         (json_dumps_indent2 (openrouter.rt env)
                            (VDict [ ("history", VList (map VDict (history.last6 turns))) ]))
                         (fun s => s) (history._fallback (openrouter.rt env) turns)
                   end).
  { destruct turns; [contradiction | reflexivity]. }
  rewrite Hs, complete_or_model_answer. unfold model_answer, url.
  change (history._fallback (openrouter.rt env) turns)
    with (history.fallback_prefix
          ++ prefix 500 (join " | " (map (rendered_turn (openrouter.rt env))
                                         (history.last6 turns)))).
  repeat split.
  - intros exc ->. destruct (openrouter.unconfigured env); reflexivity.
  - intros exc ->. destruct (openrouter.unconfigured env); [reflexivity |].
    destruct (openrouter.OpenAI env _ _); reflexivity.
  - intros ->. destruct (openrouter.unconfigured env); [reflexivity |].
    destruct (openrouter.OpenAI env _ _); reflexivity.
  - intros rest ->. destruct (openrouter.unconfigured env); [reflexivity |].
    destruct (openrouter.OpenAI env _ _); reflexivity.
  - intros content rest -> -> ->. reflexivity.
Qed.

(** X19. The summary depends on the history through its last six turns
    only, with or without a model: two non-empty histories that end in
    the same six turns get the same summary from the same environment. *)
Theorem summarize_depends_on_last_six (turns1 turns2 : list dict) :
  turns1 <> [] ->
  turns2 <> [] ->
  history.last6 turns1 = history.last6 turns2 ->
  history.summarize_history env turns1 = history.summarize_history env turns2.
Proof.
  intros H1 H2 Hsame.
  destruct turns1 as [| t1 rest1]; [contradiction |].
  destruct turns2 as [| t2 rest2]; [contradiction |].
  unfold history.summarize_history, history._fallback.
  rewrite Hsame. reflexivity.
Qed.

End ModelPath.

Lemma combine_degrades_in_place_witness :
  combine.combine_tool_outputs llm_samples.silent_model llm_samples.first_request
  = CombinedAnswerResponse.Build
      ("budget_tracker_agent: Remaining: 40 | "
       ++ "deadline_guardian_agent: failed (HTTP 503 calling http://deadline.local)")
  /\ combine.combine_tool_outputs llm_samples.answering_model llm_samples.first_request
     = CombinedAnswerResponse.Build "Forty dollars are left.".
Proof.
  split.
  - exact (proj1 (proj2 (proj2 (proj2 (@combine_degrades_in_place
                                         llm_samples.silent_model
                                         llm_samples.first_request))))
                 [] eq_refl).
  - exact (proj2 (proj2 (proj2 (proj2 (@combine_degrades_in_place
                                         llm_samples.answering_model
                                         llm_samples.first_request))))
                 "  Forty dollars are left. " [] eq_refl eq_refl eq_refl).
Defined.

Lemma summarize_degrades_in_place_witness :
  history.summarize_history llm_samples.silent_model llm_samples.conversation
  = "Conversation summary (fallback): assistant: two | user: three | assistant: four | "
    ++ "user: five | assistant: six | user: seven"
  /\ history.summarize_history llm_samples.answering_model llm_samples.conversation
     = "Forty dollars are left.".
Proof.
  split.
  - exact (proj1 (proj2 (proj2 (proj2 (@summarize_degrades_in_place
                                         llm_samples.silent_model
                                         llm_samples.conversation
                                         ltac:(discriminate)))))
                 [] eq_refl).
  - exact (proj2 (proj2 (proj2 (proj2 (@summarize_degrades_in_place
                                         llm_samples.answering_model
                                         llm_samples.conversation
                                         ltac:(discriminate)))))
                 "  Forty dollars are left. " [] eq_refl eq_refl eq_refl).
Defined.

Lemma summarize_depends_on_last_six_witness :
  List.length llm_samples.conversation <> List.length (tl llm_samples.conversation)
  /\ history.summarize_history llm_samples.answering_model llm_samples.conversation
     = history.summarize_history llm_samples.answering_model (tl llm_samples.conversation).
Proof.
  split; [discriminate |].
  apply (@summarize_depends_on_last_six llm_samples.answering_model
                                       llm_samples.conversation
                                       (tl llm_samples.conversation));
    [discriminate | discriminate | reflexivity].
Defined.
